(** * The Amadeus tool of The-PathFinder: flight and hotel search clients

    A shallow embedding of [amadeus_tool.py]: the token fetch
    [_get_amadeus_token], the flight client [search_amadeus_flights] and the
    two-step hotel client [search_amadeus_hotels].  The three functions talk
    to the network through [requests.post] and [requests.get]; here the
    network is an oracle from requests to replies and every call is logged, so
    that statements about "which requests were issued" are statements about
    the log.

    Two things are taken from outside the module.  The operations of Python's
    [str] that consult the Unicode character database ([upper], [lower],
    [repr]) are parameters, constrained on ASCII texts only ([Py.Unicode]).
    What [Response.json()] does with a body is part of the reply: the decoded
    document, or the error of the decoder ([decode_error]). *)

From Stdlib Require Import ZArith Ascii String List Bool Lia.
From stdpp Require Import base gmap strings list pretty.

Local Open Scope Z_scope.
Local Open Scope string_scope.
Set Warnings "-register-all".

(** ** Python values

    The values that flow through the module: arguments, JSON documents as
    produced by [Response.json()], the dictionaries handed to [requests] and
    the results.  A [dict] is kept as an association list with distinct keys
    in insertion order, which is also the order [str()] prints.  A float is
    carried by its [repr] text; the code never computes with one. *)

Inductive pyval : Type :=
| PNone
| PBool (b : bool)
| PInt (n : Z)
| PFloat (repr : string)
| PStr (s : string)
| PList (l : list pyval)
| PDict (d : list (string * pyval)).

Module Py.

(** Truth value testing, as used by [if x] and [not x]. *)
Definition truthy (v : pyval) : bool :=
  match v with
  | PNone => false
  | PBool b => b
  | PInt n => negb (Z.eqb n 0)
  | PFloat r => negb (String.eqb r "0.0" || String.eqb r "-0.0")
  | PStr s => negb (String.eqb s "")
  | PList l => match l with [] => false | _ => true end
  | PDict d => match d with [] => false | _ => true end
  end.

(** [if s] for an argument declared [s: str = None]. *)
Definition truthy_opt (o : option string) : bool :=
  match o with
  | Some s => negb (String.eqb s "")
  | None => false
  end.

Definition of_opt (o : option string) : pyval :=
  match o with
  | Some s => PStr s
  | None => PNone
  end.

Definition type_name (v : pyval) : string :=
  match v with
  | PNone => "NoneType"
  | PBool _ => "bool"
  | PInt _ => "int"
  | PFloat _ => "float"
  | PStr _ => "str"
  | PList _ => "list"
  | PDict _ => "dict"
  end.

(** [d.get(k)] on the association list. *)
Fixpoint assoc (k : string) (d : list (string * pyval)) : option pyval :=
  match d with
  | [] => None
  | (k', v) :: d' => if String.eqb k k' then Some v else assoc k d'
  end.

(** [sub in s] on strings. *)
Fixpoint contains (sub s : string) : bool :=
  String.prefix sub s
  || match s with
     | EmptyString => false
     | String _ s' => contains sub s'
     end.

Fixpoint join (sep : string) (l : list string) : string :=
  match l with
  | [] => ""
  | [x] => x
  | x :: l' => x ++ sep ++ join sep l'
  end.

(** [l[:n]] *)
Definition slice_to {A : Type} (n : Z) (l : list A) : list A :=
  if Z.leb 0 n then firstn (Z.to_nat n) l
  else firstn (length l - Z.to_nat (- n))%nat l.

Definition dquote : ascii := ascii_of_nat 34.

(** *** Texts and the Unicode database

    A Python [str] is carried as the bytes of its UTF-8 encoding: equality,
    concatenation, [in] and [join] act on these bytes as they act on the
    characters.  Three operations used by the module consult the Unicode
    character database: [str.upper()] and [str.lower()] for the case mappings,
    [repr] of a text for the characters that are printable.  The database is
    not part of this development: the three operations are parameters
    ([Unicode] below), known only on ASCII texts, where they are the functions
    of [OnAscii]. *)

Definition is_ascii (s : string) : bool :=
  forallb (fun c => Nat.ltb (nat_of_ascii c) 128) (list_ascii_of_string s).

Module OnAscii.

Definition upper_char (c : ascii) : ascii :=
  let n := nat_of_ascii c in
  if Nat.leb 97 n && Nat.leb n 122 then ascii_of_nat (n - 32) else c.

Definition lower_char (c : ascii) : ascii :=
  let n := nat_of_ascii c in
  if Nat.leb 65 n && Nat.leb n 90 then ascii_of_nat (n + 32) else c.

Fixpoint map_string (f : ascii -> ascii) (s : string) : string :=
  match s with
  | EmptyString => EmptyString
  | String c s' => String (f c) (map_string f s')
  end.

Definition upper : string -> string := map_string upper_char.
Definition lower : string -> string := map_string lower_char.

Definition hex_digit (n : nat) : ascii :=
  ascii_of_nat (if Nat.ltb n 10 then 48 + n else 87 + n)%nat.

Definition repr_char (quote : ascii) (c : ascii) : string :=
  let n := nat_of_ascii c in
  if Ascii.eqb c "\" then "\\"
  else if Ascii.eqb c quote then String "\" (String c "")
  else if Nat.eqb n 9 then "\t"
  else if Nat.eqb n 10 then "\n"
  else if Nat.eqb n 13 then "\r"
  else if Nat.ltb n 32 || Nat.eqb n 127
       then String "\" (String "x" (String (hex_digit (n / 16)%nat)
                                      (String (hex_digit (n mod 16)%nat) "")))
  else String c "".

Fixpoint repr_chars (quote : ascii) (s : string) : string :=
  match s with
  | EmptyString => EmptyString
  | String c s' => repr_char quote c ++ repr_chars quote s'
  end.

(** [repr(s)] for an ASCII text: single quotes, unless [s] has a single quote
    and no double quote; backslash, the quote and the control characters are
    escaped. *)
Definition repr (s : string) : string :=
  let quote : ascii :=
    if contains "'" s && negb (contains (String dquote "") s)
    then dquote else "'"%char in
  String quote (repr_chars quote s ++ String quote "").

End OnAscii.

(** [upper s] is [s.upper()], [lower s] is [s.lower()], [repr_text s] is
    [repr(s)]. *)
Class Unicode : Type := {
  upper : string -> string;
  lower : string -> string;
  repr_text : string -> string;
  upper_ascii : forall s, is_ascii s = true -> upper s = OnAscii.upper s;
  lower_ascii : forall s, is_ascii s = true -> lower s = OnAscii.lower s;
  repr_text_ascii : forall s, is_ascii s = true -> repr_text s = OnAscii.repr s
}.

(** The operations that take every character outside ASCII for a caseless,
    printable one.  They are what the concrete runs at the end compute with;
    the texts of those runs are ASCII. *)
Definition ascii_only : Unicode :=
  {| upper := OnAscii.upper;
     lower := OnAscii.lower;
     repr_text := OnAscii.repr;
     upper_ascii := fun _ _ => eq_refl;
     lower_ascii := fun _ _ => eq_refl;
     repr_text_ascii := fun _ _ => eq_refl |}.

(** *** [repr] and [str] *)

Section Rendering.

Context {U : Unicode}.

Fixpoint repr (v : pyval) : string :=
  match v with
  | PNone => "None"
  | PBool true => "True"
  | PBool false => "False"
  | PInt n => pretty n
  | PFloat r => r
  | PStr s => repr_text s
  | PList l => "[" ++ join ", " (map repr l) ++ "]"
  | PDict d =>
      "{" ++ join ", " (map (fun kv => repr_text (fst kv) ++ ": " ++ repr (snd kv)) d)
          ++ "}"
  end.

(** [str(v)], also what an f-string does with [{v}]. *)
Definition str (v : pyval) : string :=
  match v with
  | PStr s => s
  | _ => repr v
  end.

End Rendering.

End Py.


(** ** The [requests] library, as the module sees it *)

(** What [json.loads] can raise on a body: [json.JSONDecodeError] when the
    body is not a JSON text; a plain [ValueError] when an integer literal has
    more digits than the interpreter converts (4300 unless configured
    otherwise, Python 3.11 and later); [RecursionError] when the document is
    nested deeper than the interpreter follows. *)
Inductive decode_error : Type :=
| Malformed
| Too_many_digits
| Too_deep.

(** A [requests.Response]: the attributes and methods the code reads.
    [resp_json] is what [.json()] comes to: the decoded document, or the error
    of the decoder with its message. *)
Record response : Type := {
  status_code : Z;
  reason : string;
  resp_url : string;
  text : string;
  resp_json : (decode_error * string) + pyval
}.

(** The exception classes that can arise in the module.  [RequestException] is
    the base class of [requests.exceptions] ([ConnectionError], [Timeout] and
    so on are not told apart by the code).  [HTTPError] is what
    [raise_for_status] raises.  [JSONDecodeError] is
    [requests.exceptions.JSONDecodeError], raised by [.json()] since
    requests 2.27: it derives from [InvalidJSONError], a [RequestException],
    and from [json.JSONDecodeError], a [ValueError].  [RecursionError] is a
    [RuntimeError]; no clause of the module names it or a base class of it. *)
Inductive exn_class : Type :=
| RequestException
| HTTPError
| JSONDecodeError
| ValueError
| KeyError
| TypeError
| AttributeError
| RecursionError.

Record exn : Type := {
  exn_cls : exn_class;
  exn_str : string;               (* str(e) *)
  exn_response : option response  (* e.response, for a RequestException *)
}.

(** [isinstance(e, c)]: the subclass relation of the classes above. *)
Definition subclass (c c' : exn_class) : bool :=
  match c, c' with
  | RequestException, RequestException
  | HTTPError, (HTTPError | RequestException)
  | JSONDecodeError, (JSONDecodeError | RequestException | ValueError)
  | ValueError, ValueError
  | KeyError, KeyError
  | TypeError, TypeError
  | AttributeError, AttributeError
  | RecursionError, RecursionError => true
  | _, _ => false
  end.

Definition isinstance (e : exn) (cs : list exn_class) : bool :=
  existsb (subclass (exn_cls e)) cs.

Inductive http_method : Type := POST | GET.

(** One outbound call: [requests.post(url, headers=, data=, timeout=)] or
    [requests.get(url, headers=, params=, timeout=)]. *)
Record request : Type := {
  req_method : http_method;
  req_url : string;
  req_headers : gmap string string;
  req_fields : gmap string pyval;   (* data= of a POST, params= of a GET *)
  req_timeout : option Z
}.

(** What the network does with a call: no response at all (the call raises a
    [RequestException] with this message and, for some subclasses, a response
    attached), or a response. *)
Inductive reply : Type :=
| Failed (msg : string) (attached : option response)
| Replied (r : response).

Definition network : Type := request -> reply.

(** ** Python control flow

    A statement either completes, executes [return v], or raises.  A
    computation reads the network and appends to the log of calls. *)
Inductive outcome (A : Type) : Type :=
| Normal (a : A)
| Return (v : pyval)
| Raise (e : exn).
Arguments Normal {A} a.
Arguments Return {A} v.
Arguments Raise {A} e.

Definition py (A : Type) : Type := network -> list request -> outcome A * list request.

Definition pure {A} (a : A) : py A := fun _ log => (Normal a, log).
Definition return_ {A} (v : pyval) : py A := fun _ log => (Return v, log).
Definition raise {A} (e : exn) : py A := fun _ log => (Raise e, log).

Definition bind {A B} (m : py A) (k : A -> py B) : py B :=
  fun net log =>
    match m net log with
    | (Normal a, log') => k a net log'
    | (Return v, log') => (Return v, log')
    | (Raise e, log') => (Raise e, log')
    end.

Notation "'let*' x ':=' m 'in' k" := (bind m (fun x => k))
  (at level 10, x name, m at level 100, k at level 200, only parsing).
Notation "'exec' m 'in' k" := (bind m (fun _ => k))
  (at level 10, m at level 100, k at level 200, only parsing).

(** [try: body except C1 as e: h1 except C2 as e: h2]: the first clause whose
    classes match handles the exception; none matching, it propagates. *)
Fixpoint dispatch {A} (e : exn) (clauses : list (list exn_class * (exn -> py A))) : py A :=
  match clauses with
  | [] => raise e
  | (cs, h) :: rest => if isinstance e cs then h e else dispatch e rest
  end.

Definition try_except {A} (body : py A) (clauses : list (list exn_class * (exn -> py A)))
  : py A :=
  fun net log =>
    match body net log with
    | (Raise e, log') => dispatch e clauses net log'
    | r => r
    end.

(** Calling a function whose body is [body]: [return v] gives [v], falling off
    the end gives [None], an exception propagates into the caller. *)
Definition call (body : py unit) : py pyval :=
  fun net log =>
    match body net log with
    | (Normal _, log') => (Normal PNone, log')
    | (Return v, log') => (Normal v, log')
    | (Raise e, log') => (Raise e, log')
    end.

(** The result of a top-level call and the calls it issued, in order. *)
Definition run (f : py pyval) (net : network) : (pyval + exn) * list request :=
  match f net [] with
  | (Normal v, log) => (inl v, log)
  | (Return v, log) => (inl v, log)
  | (Raise e, log) => (inr e, log)
  end.

Module Requests.

Definition send (rq : request) : py response :=
  fun net log =>
    match net rq with
    | Failed msg attached =>
        (Raise {| exn_cls := RequestException; exn_str := msg;
                  exn_response := attached |}, (log ++ [rq])%list)
    | Replied r => (Normal r, (log ++ [rq])%list)
    end.

Definition post (url : string) (headers : gmap string string)
    (data : gmap string pyval) (timeout : option Z) : py response :=
  send {| req_method := POST; req_url := url; req_headers := headers;
          req_fields := data; req_timeout := timeout |}.

Definition get (url : string) (headers : gmap string string)
    (params : gmap string pyval) (timeout : option Z) : py response :=
  send {| req_method := GET; req_url := url; req_headers := headers;
          req_fields := params; req_timeout := timeout |}.

Definition is_error_status (r : response) : bool :=
  Z.leb 400 (status_code r) && Z.ltb (status_code r) 600.

(** [Response.ok], which is also the truth value of a response object. *)
Definition ok (r : response) : bool := negb (is_error_status r).

(** [Response.raise_for_status()]: raises [HTTPError] for 4xx and 5xx. *)
Definition raise_for_status (r : response) : py unit :=
  if is_error_status r then
    raise {| exn_cls := HTTPError;
             exn_str := pretty (status_code r)
                        ++ (if Z.ltb (status_code r) 500 then " Client Error: "
                            else " Server Error: ")
                        ++ reason r ++ " for url: " ++ resp_url r;
             exn_response := Some r |}
  else pure tt.

(** [Response.json()]: [json.loads] on the body.  A [json.JSONDecodeError] is
    raised again as [requests.exceptions.JSONDecodeError]; the other
    exceptions of the decoder go through as they are. *)
Definition json (r : response) : py pyval :=
  match resp_json r with
  | inr v => pure v
  | inl (err, msg) =>
      raise {| exn_cls := match err with
                          | Malformed => JSONDecodeError
                          | Too_many_digits => ValueError
                          | Too_deep => RecursionError
                          end;
               exn_str := msg; exn_response := None |}
  end.

End Requests.

(** ** Operations on Python values that can raise *)

Definition type_error {A} (msg : string) : py A :=
  raise {| exn_cls := TypeError; exn_str := msg; exn_response := None |}.

Definition attribute_error {A} (v : pyval) (attr : string) : py A :=
  raise {| exn_cls := AttributeError;
           exn_str := "'" ++ Py.type_name v ++ "' object has no attribute '" ++ attr ++ "'";
           exn_response := None |}.

(** [v.get(k, default)]: only a [dict] has the method. *)
Definition py_get (v : pyval) (k : string) (default : pyval) : py pyval :=
  match v with
  | PDict d => pure (match Py.assoc k d with Some x => x | None => default end)
  | _ => attribute_error v "get"
  end.

Definition is_str (s : string) (v : pyval) : bool :=
  match v with
  | PStr s' => String.eqb s s'
  | _ => false
  end.

(** [s in v] for a string [s]. *)
Definition py_in (s : string) (v : pyval) : py bool :=
  match v with
  | PStr s' => pure (Py.contains s s')
  | PList l => pure (existsb (is_str s) l)
  | PDict d => pure (existsb (fun kv => String.eqb s (fst kv)) d)
  | _ => type_error ("argument of type '" ++ Py.type_name v ++ "' is not iterable")
  end.

(** The items of a text, one per byte here; the module only calls [.get] on
    them, which no text has. *)
Fixpoint chars (s : string) : list pyval :=
  match s with
  | EmptyString => []
  | String c s' => PStr (String c "") :: chars s'
  end.

(** The elements [for h in v] runs over. *)
Definition py_iter (v : pyval) : py (list pyval) :=
  match v with
  | PList l => pure l
  | PStr s => pure (chars s)
  | PDict d => pure (map (fun kv => PStr (fst kv)) d)
  | _ => type_error ("'" ++ Py.type_name v ++ "' object is not iterable")
  end.

(** [sep.join(l)]: every item must be a [str]. *)
Fixpoint py_join_items (i : Z) (l : list pyval) : py (list string) :=
  match l with
  | [] => pure []
  | PStr s :: l' => let* r := py_join_items (i + 1) l' in pure (s :: r)
  | v :: _ =>
      type_error ("sequence item " ++ pretty i ++ ": expected str instance, "
                  ++ Py.type_name v ++ " found")
  end.

Definition py_join (sep : string) (l : list pyval) : py string :=
  let* items := py_join_items 0 l in pure (Py.join sep items).

(** ** amadeus_tool.py *)

Definition TOKEN_URL := "https://test.api.amadeus.com/v1/security/oauth2/token".
Definition FLIGHT_OFFERS_URL := "https://test.api.amadeus.com/v2/shopping/flight-offers".

Section Module_globals.

Context {U : Py.Unicode}.

(** [os.getenv] gives [None] for a variable that is not set. *)
Variables AMADEUS_API_KEY AMADEUS_API_SECRET : option string.

Definition credentials_data : gmap string pyval :=
  <["client_secret" := Py.of_opt AMADEUS_API_SECRET]>
    (<["client_id" := Py.of_opt AMADEUS_API_KEY]>
       {["grant_type" := PStr "client_credentials"]}).

Definition form_headers : gmap string string :=
  {["Content-Type" := "application/x-www-form-urlencoded"]}.

Definition flight_token_request : request :=
  {| req_method := POST; req_url := TOKEN_URL; req_headers := form_headers;
     req_fields := credentials_data; req_timeout := None |}.

Definition _get_amadeus_token : py pyval :=
  call (
    if negb (Py.truthy_opt AMADEUS_API_KEY) || negb (Py.truthy_opt AMADEUS_API_SECRET)
    then return_ (PStr "Error: Amadeus API Key or Secret is not set in environment variables.")
    else
      let headers := form_headers in
      let data := credentials_data in
      try_except
        (let* response := Requests.post TOKEN_URL headers data None in
         exec Requests.raise_for_status response in
         let* body := Requests.json response in
         let* token := py_get body "access_token" PNone in
         return_ token)
        [([RequestException],
          fun e => return_ (PStr ("Error fetching Amadeus token: " ++ exn_str e)))]).

(** The [params] dictionary of the flight search, lines 70 to 89. *)
Definition flight_params
    (origin_location_code destination_location_code departure_date : string)
    (adults : Z) (non_stop : bool) (return_date : option string)
    (children infants : Z) (travel_class : option string) (max_results : Z)
  : gmap string pyval :=
  let params : gmap string pyval :=
    <["max" := PInt max_results]>
      (<["nonStop" := PStr (Py.lower (Py.str (PBool non_stop)))]>
         (<["adults" := PInt adults]>
            (<["departureDate" := PStr departure_date]>
               (<["destinationLocationCode" := PStr destination_location_code]>
                  {["originLocationCode" := PStr origin_location_code]})))) in
  let params :=
    if Py.truthy_opt return_date
    then <["returnDate" := Py.of_opt return_date]> params else params in
  let params :=
    if Z.ltb 0 children then <["children" := PInt children]> params else params in
  let params :=
    if Z.ltb 0 infants then <["infants" := PInt infants]> params else params in
  match travel_class with
  | Some tc =>
      if Py.truthy_opt travel_class then
        if existsb (String.eqb (Py.upper tc))
             ["ECONOMY"; "PREMIUM_ECONOMY"; "BUSINESS"; "FIRST"]
        then <["travelClass" := PStr (Py.upper tc)]> params
        else params
      else params
  | None => params
  end.

Definition flight_offers_request (token : pyval) (params : gmap string pyval) : request :=
  {| req_method := GET; req_url := FLIGHT_OFFERS_URL;
     req_headers := {["Authorization" := "Bearer " ++ Py.str token]};
     req_fields := params; req_timeout := None |}.

Definition search_amadeus_flights
    (origin_location_code destination_location_code departure_date : string)
    (adults : Z) (non_stop : bool) (return_date : option string)
    (children infants : Z) (travel_class : option string) (max_results : Z)
  : py pyval :=
  call (
    let* token := _get_amadeus_token in
    let* is_error := py_in "Error" token in
    if is_error then return_ token
    else
      let headers : gmap string string :=
        {["Authorization" := "Bearer " ++ Py.str token]} in
      let params :=
        flight_params origin_location_code destination_location_code departure_date
          adults non_stop return_date children infants travel_class max_results in
      try_except
        (let* response := Requests.get FLIGHT_OFFERS_URL headers params None in
         exec Requests.raise_for_status response in
         let* body := Requests.json response in
         return_ (PStr (Py.str body)))
        [([RequestException],
          fun e =>
            match exn_response e with
            | Some r => return_ (PStr ("Error from Amadeus API: " ++ text r))
            | None => return_ (PStr ("Error fetching flight offers: " ++ exn_str e))
            end)]).

End Module_globals.

(** *** search_amadeus_hotels *)

(** [getattr(e, "response", None).text if getattr(e, "response", None) else str(e)].
    The condition is the truth value of the response object, which [requests]
    defines as [Response.ok]. *)
Definition error_details (e : exn) : string :=
  match exn_response e with
  | Some r => if Requests.ok r then text r else exn_str e
  | None => exn_str e
  end.

(** [[h.get("hotelId") for h in hotels_data if h.get("hotelId")]] *)
Fixpoint collect_hotel_ids (hotels_data : list pyval) : py (list pyval) :=
  match hotels_data with
  | [] => pure []
  | h :: rest =>
      let* cond := py_get h "hotelId" PNone in
      if Py.truthy cond then
        let* item := py_get h "hotelId" PNone in
        let* items := collect_hotel_ids rest in
        pure (item :: items)
      else collect_hotel_ids rest
  end.

Section Hotel_search.

Context {U : Py.Unicode}.
Variables AMADEUS_API_KEY AMADEUS_API_SECRET : option string.
Variables (city_code check_in_date check_out_date : string) (adults : Z)
          (use_test_env : bool) (radius_km max_hotels : Z)
          (currency price_range : string) (room_quantity : Z) (view : string).

Definition base : string :=
  if use_test_env then "https://test.api.amadeus.com" else "https://api.amadeus.com".
Definition hotel_TOKEN_URL : string := base ++ "/v1/security/oauth2/token".
Definition HOTEL_LIST_URL : string := base ++ "/v1/reference-data/locations/hotels/by-city".
Definition HOTEL_OFFERS_URL : string := base ++ "/v3/shopping/hotel-offers".
Definition TIMEOUT : Z := 20.

Definition auth_error (msg details : string) : pyval :=
  PDict [("error", PStr msg); ("details", PStr details); ("step", PStr "auth")].

Definition step_error (msg details : string) (step : Z) : pyval :=
  PDict [("error", PStr msg); ("details", PStr details); ("step", PInt step)].

Definition step_error_plain (msg : string) (step : Z) : pyval :=
  PDict [("error", PStr msg); ("step", PInt step)].

Definition token_request : request :=
  {| req_method := POST; req_url := hotel_TOKEN_URL; req_headers := form_headers;
     req_fields := credentials_data AMADEUS_API_KEY AMADEUS_API_SECRET;
     req_timeout := Some TIMEOUT |}.

(** The AUTH block, lines 129 to 143: the body of its [try] and the whole
    statement, which completes with [access_token]. *)
Definition auth_attempt : py pyval :=
  let headers := form_headers in
  let data := credentials_data AMADEUS_API_KEY AMADEUS_API_SECRET in
  let* token_resp := Requests.post hotel_TOKEN_URL headers data (Some TIMEOUT) in
  exec Requests.raise_for_status token_resp in
  let* body := Requests.json token_resp in
  let* access_token := py_get body "access_token" PNone in
  if negb (Py.truthy access_token)
  then return_ (auth_error "No access_token in token response" (text token_resp))
  else pure access_token.

Definition hotel_auth : py pyval :=
  try_except auth_attempt
    [([RequestException],
      fun e => return_ (auth_error "Amadeus authentication failed" (error_details e)))].

Definition auth_headers (access_token : pyval) : gmap string string :=
  {["Authorization" := "Bearer " ++ Py.str access_token]}.

Definition list_params : gmap string pyval :=
  <["radiusUnit" := PStr "KM"]>
    (<["radius" := PInt radius_km]> {["cityCode" := PStr city_code]}).

Definition list_request (access_token : pyval) : request :=
  {| req_method := GET; req_url := HOTEL_LIST_URL;
     req_headers := auth_headers access_token; req_fields := list_params;
     req_timeout := Some TIMEOUT |}.

(** Lines 152 and 153: from the response to [hotel_ids]. *)
Definition hotel_ids_of (list_resp : response) : py (list pyval) :=
  let* body := Requests.json list_resp in
  let* hotels_data := py_get body "data" (PList []) in
  let* elements := py_iter hotels_data in
  let* ids := collect_hotel_ids elements in
  pure (Py.slice_to max_hotels ids).

(** The STEP 1 block, lines 148 to 158: the body of its [try] and the whole
    statement, which completes with [hotel_ids]. *)
Definition list_attempt (access_token : pyval) : py (list pyval) :=
  let* list_resp :=
    Requests.get HOTEL_LIST_URL (auth_headers access_token) list_params (Some TIMEOUT) in
  exec Requests.raise_for_status list_resp in
  hotel_ids_of list_resp.

Definition hotel_list (access_token : pyval) : py (list pyval) :=
  try_except (list_attempt access_token)
    [([RequestException],
      fun e => return_ (step_error "Hotel List API error" (error_details e) 1));
     ([ValueError; KeyError; TypeError],
      fun e => return_ (step_error_plain ("Could not parse hotel IDs: " ++ exn_str e) 1))].

(** The [offer_params] dictionary, lines 165 to 185. *)
Definition offer_params (joined_ids : string) : gmap string pyval :=
  let offer_params : gmap string pyval :=
    <["view" := PStr "FULL"]>
      (<["priceRange" := PStr price_range]>
         (<["bestRateOnly" := PStr "false"]>
            (<["includeClosed" := PStr "true"]>
               (<["roomQuantity" := PInt room_quantity]>
                  (<["adults" := PInt adults]>
                     (<["checkOutDate" := PStr check_out_date]>
                        (<["checkInDate" := PStr check_in_date]>
                           {["hotelIds" := PStr joined_ids]}))))))) in
  let offer_params :=
    if Py.truthy (PStr currency)
    then <["currency" := PStr currency]> offer_params else offer_params in
  let offer_params :=
    if Py.truthy (PStr price_range)
    then <["priceRange" := PStr price_range]> offer_params else offer_params in
  if Py.truthy (PStr view)
  then <["view" := PStr view]> offer_params else offer_params.

Definition offers_request (access_token : pyval) (joined_ids : string) : request :=
  {| req_method := GET; req_url := HOTEL_OFFERS_URL;
     req_headers := auth_headers access_token; req_fields := offer_params joined_ids;
     req_timeout := Some TIMEOUT |}.

(** The STEP 2 block, lines 165 to 194: the body of its [try] and the whole
    block. *)
Definition offers_attempt (access_token : pyval) (joined_ids : string) : py unit :=
  let* offer_resp :=
    Requests.get HOTEL_OFFERS_URL (auth_headers access_token) (offer_params joined_ids)
      (Some TIMEOUT) in
  exec Requests.raise_for_status offer_resp in
  let* body := Requests.json offer_resp in
  return_ body.

Definition hotel_offers (access_token : pyval) (hotel_ids : list pyval) : py unit :=
  let* joined_ids := py_join "," hotel_ids in
  try_except (offers_attempt access_token joined_ids)
    [([RequestException],
      fun e => return_ (step_error "Hotel Offers API error" (error_details e) 2))].

(** The dictionary of line 161. *)
Definition no_hotels_found : pyval :=
  step_error_plain
    ("No hotels found in " ++ city_code ++ ". Check city code or increase radius.") 1.

Definition search_amadeus_hotels : py pyval :=
  call (
    let* access_token := hotel_auth in
    let* hotel_ids := hotel_list access_token in
    if negb (Py.truthy (PList hotel_ids))
    then return_ no_hotels_found
    else hotel_offers access_token hotel_ids).

End Hotel_search.

(** ** Vocabulary of the statements *)

(** The three stages of the hotel chain, their [step] discriminators and the
    endpoint each one calls. *)
Inductive stage : Type := Auth | Listing | Offers.

Definition stage_tag (s : stage) : pyval :=
  match s with
  | Auth => PStr "auth"
  | Listing => PInt 1
  | Offers => PInt 2
  end.

Definition endpoint_of (rq : request) : http_method * string :=
  (req_method rq, req_url rq).

Definition endpoints (use_test_env : bool) : list (http_method * string) :=
  [(POST, hotel_TOKEN_URL use_test_env);
   (GET, HOTEL_LIST_URL use_test_env);
   (GET, HOTEL_OFFERS_URL use_test_env)].

(** The calls made when the chain stops at stage [s]. *)
Definition stage_calls (use_test_env : bool) (s : stage) : list (http_method * string) :=
  match s with
  | Auth => firstn 1 (endpoints use_test_env)
  | Listing => firstn 2 (endpoints use_test_env)
  | Offers => endpoints use_test_env
  end.

(** A result that is an error dictionary with the given [step]. *)
Definition tagged (step : pyval) (res : pyval + exn) : Prop :=
  exists d, res = inl (PDict d)
            /\ Py.assoc "step" d = Some step
            /\ exists msg, Py.assoc "error" d = Some (PStr msg).

(** What is left of an exception raised under [except] clauses that name the
    classes [cs]: nothing when one of them handles it. *)
Definition escaping (cs : list exn_class) (e : exn) : option exn :=
  if isinstance e cs then None else Some e.

(** A stage fails when its code raises an exception, in the body of its [try]
    or, for the offers stage, at the [",".join] before it, and when its own
    check rejects the value it obtained (no token, no hotel).  [fails s esc]:
    stage [s] fails, and [esc] is the exception that none of its [except]
    clauses handles, if there is one. *)
Section Stage_failure.

Context {U : Py.Unicode}.
Variables AMADEUS_API_KEY AMADEUS_API_SECRET : option string.
Variables (city_code check_in_date check_out_date : string) (adults : Z)
          (use_test_env : bool) (radius_km max_hotels : Z)
          (currency price_range : string) (room_quantity : Z) (view : string).
Variable net : network.

Let auth := hotel_auth AMADEUS_API_KEY AMADEUS_API_SECRET use_test_env.
Let listing := hotel_list city_code use_test_env radius_km max_hotels.

Inductive fails : stage -> option exn -> Prop :=
| auth_raises e log :
    auth_attempt AMADEUS_API_KEY AMADEUS_API_SECRET use_test_env net [] = (Raise e, log) ->
    fails Auth (escaping [RequestException] e)
| auth_no_token d log :
    auth_attempt AMADEUS_API_KEY AMADEUS_API_SECRET use_test_env net [] = (Return d, log) ->
    fails Auth None
| list_raises tok log1 e log2 :
    auth net [] = (Normal tok, log1) ->
    list_attempt city_code use_test_env radius_km max_hotels tok net log1 = (Raise e, log2) ->
    fails Listing (escaping [RequestException; ValueError; KeyError; TypeError] e)
| list_empty tok log1 log2 :
    auth net [] = (Normal tok, log1) ->
    listing tok net log1 = (Normal [], log2) ->
    fails Listing None
| join_raises tok log1 ids log2 e log3 :
    auth net [] = (Normal tok, log1) ->
    listing tok net log1 = (Normal ids, log2) ->
    ids <> [] ->
    py_join "," ids net log2 = (Raise e, log3) ->
    fails Offers (Some e)
| offers_raises tok log1 ids log2 joined e log3 :
    auth net [] = (Normal tok, log1) ->
    listing tok net log1 = (Normal ids, log2) ->
    ids <> [] ->
    py_join "," ids net log2 = (Normal joined, log2) ->
    offers_attempt check_in_date check_out_date adults use_test_env currency price_range
      room_quantity view tok joined net log2 = (Raise e, log3) ->
    fails Offers (escaping [RequestException] e).

End Stage_failure.

Definition is_dict (v : pyval) : bool :=
  match v with PDict _ => true | _ => false end.

(** An entry of the provider's hotel list carrying the identifier [id]. *)
Definition has_hotel_id (h id : pyval) : Prop :=
  exists d, h = PDict d /\ Py.assoc "hotelId" d = Some id.

(** ** Sample replies and networks, for the concrete runs below *)

Section Samples.

#[local] Existing Instance Py.ascii_only.

Definition json_response (status : Z) (body : string) (doc : pyval) : response :=
  {| status_code := status; reason := "OK"; resp_url := "https://test.api.amadeus.com";
     text := body; resp_json := inr doc |}.

Definition undecodable_response (status : Z) (body : string) (msg : string) : response :=
  {| status_code := status; reason := "OK"; resp_url := "https://test.api.amadeus.com";
     text := body; resp_json := inl (Malformed, msg) |}.

Definition reply_json (status : Z) (body : string) (doc : pyval) : reply :=
  Replied (json_response status body doc).

Definition reply_undecodable (status : Z) (body : string) (msg : string) : reply :=
  Replied (undecodable_response status body msg).

(** A network that answers by endpoint. *)
Definition sample_network (token hotels offers flights : reply) : network :=
  fun rq =>
    match req_method rq with
    | POST => token
    | GET =>
        if Py.contains "/hotels/by-city" (req_url rq) then hotels
        else if Py.contains "/hotel-offers" (req_url rq) then offers
        else flights
    end.

Definition quoted (s : string) : string := String Py.dquote (s ++ String Py.dquote "").

(** [{"access_token": "tok"}] *)
Definition token_reply : reply :=
  reply_json 200 ("{" ++ quoted "access_token" ++ ": " ++ quoted "tok" ++ "}")
    (PDict [("access_token", PStr "tok")]).

(** [{}]: a well-formed token reply without the field. *)
Definition token_reply_without_field : reply := reply_json 200 "{}" (PDict []).

(** [{"data": [{"hotelId": "H1"}, {"name": "x"}, {"hotelId": "H2"}, {"hotelId": "H3"}]}] *)
Definition hotels_body : string :=
  "{" ++ quoted "data" ++ ": [{" ++ quoted "hotelId" ++ ": " ++ quoted "H1" ++ "}, {"
      ++ quoted "name" ++ ": " ++ quoted "x" ++ "}, {"
      ++ quoted "hotelId" ++ ": " ++ quoted "H2" ++ "}, {"
      ++ quoted "hotelId" ++ ": " ++ quoted "H3" ++ "}]}".

Definition hotels_entries : list pyval :=
  [PDict [("hotelId", PStr "H1")]; PDict [("name", PStr "x")];
   PDict [("hotelId", PStr "H2")]; PDict [("hotelId", PStr "H3")]].

Definition hotels_reply : reply :=
  reply_json 200 hotels_body (PDict [("data", PList hotels_entries)]).

(** [{"data": []}] *)
Definition empty_data_body : string := "{" ++ quoted "data" ++ ": []}".

Definition empty_data_reply : reply :=
  reply_json 200 empty_data_body (PDict [("data", PList [])]).

Definition not_json_reply : reply :=
  reply_undecodable 200 "<html>" "Expecting value: line 1 column 1 (char 0)".

Definition unreachable : reply := Failed "Connection refused" None.

Definition healthy_network : network :=
  sample_network token_reply hotels_reply empty_data_reply empty_data_reply.

Definition sample_hotel_search (key secret : option string) (max_hotels : Z)
    (currency price_range view : string) : py pyval :=
  search_amadeus_hotels key secret "PAR" "2026-01-10" "2026-01-12" 2 true 1000
    max_hotels currency price_range 1 view.

Definition sample_flight_search (key secret : option string) (children infants : Z)
    (travel_class : option string) : py pyval :=
  search_amadeus_flights key secret "LHR" "NRT" "2026-01-10" 1 false None
    children infants travel_class 3.

(** The token endpoint answers with a JSON object that has no token. *)
Definition network_without_token_field : network :=
  sample_network token_reply_without_field hotels_reply empty_data_reply empty_data_reply.

(** The hotel list of the city is empty. *)
Definition network_without_hotels : network :=
  sample_network token_reply empty_data_reply empty_data_reply empty_data_reply.

(** The hotel-list endpoint answers 200 with a body that is not JSON. *)
Definition network_with_html_hotel_list : network :=
  sample_network token_reply not_json_reply empty_data_reply empty_data_reply.

(** Nothing can be reached. *)
Definition network_down : network := fun _ => unreachable.

Definition sample_flight_request (travel_class : option string) : request :=
  flight_offers_request (PStr "tok")
    (flight_params "LHR" "NRT" "2026-01-10" 1 false None 0 0 travel_class 3).

Definition sample_offers_request (currency price_range view joined_ids : string) : request :=
  offers_request "2026-01-10" "2026-01-12" 2 true currency price_range 1 view
    (PStr "tok") joined_ids.

(** ** More sample replies and networks *)

(** 401 from the token endpoint. *)
Definition unauthorized_response : response :=
  {| status_code := 401; reason := "Unauthorized";
     resp_url := "https://test.api.amadeus.com/v1/security/oauth2/token";
     text := "{" ++ quoted "error" ++ ": " ++ quoted "invalid_client" ++ "}";
     resp_json := inr (PDict [("error", PStr "invalid_client")]) |}.

(** 400 from the flight-offers endpoint. *)
Definition bad_request_response : response :=
  {| status_code := 400; reason := "Bad Request";
     resp_url := "https://test.api.amadeus.com/v2/shopping/flight-offers";
     text := "{" ++ quoted "errors" ++ ": []}";
     resp_json := inr (PDict [("errors", PList [])]) |}.

(** A token whose text happens to contain "Error". *)
Definition unlucky_token_response : response :=
  json_response 200 ("{" ++ quoted "access_token" ++ ": " ++ quoted "kErrorQ7" ++ "}")
    (PDict [("access_token", PStr "kErrorQ7")]).

(** [{"data": [{"hotelId": 7}]}]: an identifier that is a number. *)
Definition numeric_id_response : response :=
  json_response 200 ("{" ++ quoted "data" ++ ": [{" ++ quoted "hotelId" ++ ": 7}]}")
    (PDict [("data", PList [PDict [("hotelId", PInt 7)]])]).

(** [{"data": ["H1"]}]: an entry that is a text, not an object. *)
Definition text_entry_response : response :=
  json_response 200 ("{" ++ quoted "data" ++ ": [" ++ quoted "H1" ++ "]}")
    (PDict [("data", PList [PStr "H1"])]).

(** [{"data": null}] *)
Definition null_data_response : response :=
  json_response 200 ("{" ++ quoted "data" ++ ": null}") (PDict [("data", PNone)]).

(** [{"meta": {}}]: no [data] at all. *)
Definition no_data_response : response :=
  json_response 200 ("{" ++ quoted "meta" ++ ": {}}") (PDict [("meta", PDict [])]).

Definition network_unauthorized : network :=
  sample_network (Replied unauthorized_response) hotels_reply empty_data_reply
    empty_data_reply.

Definition network_with_flight_error : network :=
  sample_network token_reply hotels_reply empty_data_reply (Replied bad_request_response).

Definition network_with_unlucky_token : network :=
  sample_network (Replied unlucky_token_response) hotels_reply empty_data_reply
    empty_data_reply.

Definition network_with_hotels (hotels : response) : network :=
  sample_network token_reply (Replied hotels) empty_data_reply empty_data_reply.

Definition sample_token_call : request := token_request (Some "k") (Some "s") true.
Definition sample_list_call : request := list_request "PAR" true 1000 (PStr "tok").

(** [[1, 2]]: a token reply that is JSON but not an object. *)
Definition array_token_response : response :=
  json_response 200 "[1, 2]" (PList [PInt 1; PInt 2]).

Definition network_with_array_token : network :=
  sample_network (Replied array_token_response) hotels_reply empty_data_reply
    empty_data_reply.





End Samples.

(** * Proofs *)

(** ** Tactics: running a computation by cases on what the network answers *)

Ltac unfold_py :=
  cbv beta iota zeta delta
    [bind pure return_ raise try_except dispatch call run
     Requests.post Requests.get Requests.send Requests.raise_for_status Requests.json
     py_get py_in py_iter type_error attribute_error];
  cbn [isinstance existsb subclass exn_cls orb andb negb fst snd app In].

(** Case analysis on a scrutinee that contains no other case analysis. *)
Ltac case_inner :=
  match goal with
  | |- context [match ?x with _ => _ end] =>
      lazymatch x with
      | context [match _ with _ => _ end] => fail
      | _ => destruct x eqn:?
      end
  end.

Ltac py_cases := unfold_py; repeat (case_inner; unfold_py).

(** The configuration-error text does contain "Error". *)
Ltac absurd_contains :=
  match goal with
  | H : Py.contains "Error" (String _ _) = false |- _ => vm_compute in H; discriminate H
  end.

Lemma success_status_not_error r :
  200 <= status_code r < 300 -> Requests.is_error_status r = false.
Proof.
  intros H. unfold Requests.is_error_status.
  apply andb_false_iff. left. apply Z.leb_gt. lia.
Qed.

Ltac map_lookup :=
  repeat first
    [ rewrite lookup_insert_eq
    | rewrite lookup_insert_ne by discriminate
    | rewrite lookup_singleton_eq
    | rewrite lookup_singleton_ne by discriminate ].

(** ** The flight client *)

Section Flights.

Context {U : Py.Unicode}.
Variables key secret : option string.
Variables (origin_location_code destination_location_code departure_date : string)
          (adults : Z) (non_stop : bool) (return_date : option string)
          (children infants : Z) (travel_class : option string) (max_results : Z).
Variable net : network.

Let params : gmap string pyval :=
  flight_params origin_location_code destination_location_code departure_date
    adults non_stop return_date children infants travel_class max_results.
Let search : py pyval :=
  search_amadeus_flights key secret origin_location_code destination_location_code
    departure_date adults non_stop return_date children infants travel_class
    max_results.

(** Without credentials the token fetch returns at once and logs nothing. *)
Lemma token_without_credentials log :
  Py.truthy_opt key && Py.truthy_opt secret = false ->
  _get_amadeus_token key secret net log
  = (Normal (PStr "Error: Amadeus API Key or Secret is not set in environment variables."),
     log).
Proof.
  intros H. unfold _get_amadeus_token. unfold_py.
  destruct (Py.truthy_opt key), (Py.truthy_opt secret); simpl in *;
    try discriminate; reflexivity.
Qed.

(** A token fetch with credentials issues exactly the token call. *)
Lemma token_fetch_log log :
  Py.truthy_opt key && Py.truthy_opt secret = true ->
  snd (_get_amadeus_token key secret net log)
  = (log ++ [flight_token_request key secret])%list.
Proof.
  intros H. unfold _get_amadeus_token, flight_token_request.
  destruct (Py.truthy_opt key), (Py.truthy_opt secret); simpl in H; try discriminate.
  clear H. py_cases; reflexivity.
Qed.

(** The calls of a flight search: none, the token call alone, or the token
    call followed by the one flight-offers call. *)
Lemma flight_calls :
  snd (run search net) = []
  \/ snd (run search net) = [flight_token_request key secret]
  \/ exists token,
       snd (run search net)
       = [flight_token_request key secret; flight_offers_request token params].
Proof.
  subst search params.
  unfold search_amadeus_flights, _get_amadeus_token, flight_token_request,
    flight_offers_request.
  py_cases.
  all: try first [left; reflexivity | right; left; reflexivity
             | right; right; eexists; reflexivity].
  all: absurd_contains.
Qed.

Lemma flight_get_request rq :
  In rq (snd (run search net)) -> req_method rq = GET -> req_fields rq = params.
Proof.
  intros Hin Hget.
  destruct flight_calls as [H | [H | [token H]]]; rewrite H in Hin; simpl in Hin.
  - contradiction.
  - destruct Hin as [<- | []]. discriminate.
  - destruct Hin as [<- | [<- | []]]; [discriminate | reflexivity].
Qed.

(** *** The optional parameters *)

Lemma flight_params_children :
  params !! "children" = if Z.ltb 0 children then Some (PInt children) else None.
Proof.
  subst params. unfold flight_params.
  repeat case_inner; map_lookup; reflexivity.
Qed.

Lemma flight_params_infants :
  params !! "infants" = if Z.ltb 0 infants then Some (PInt infants) else None.
Proof.
  subst params. unfold flight_params.
  repeat case_inner; map_lookup; reflexivity.
Qed.

Lemma flight_params_travelClass :
  params !! "travelClass"
  = match travel_class with
    | Some tc =>
        if existsb (String.eqb (Py.upper tc))
             ["ECONOMY"; "PREMIUM_ECONOMY"; "BUSINESS"; "FIRST"]
        then Some (PStr (Py.upper tc)) else None
    | None => None
    end.
Proof.
  subst params. unfold flight_params.
  destruct travel_class as [[|c tc]|]; cbn [Py.truthy_opt String.eqb negb].
  - rewrite (Py.upper_ascii "" eq_refl).
    change (existsb (String.eqb (Py.OnAscii.upper "")) _) with false.
    repeat case_inner; map_lookup; reflexivity.
  - destruct (existsb _ _); repeat case_inner; map_lookup; reflexivity.
  - repeat case_inner; map_lookup; reflexivity.
Qed.

(** *** What a flight search returns *)

(** The outcome of the flight-offers call decides the result: a decoded body
    is returned through [str()]. *)
Lemma flight_result_of_body rq r v :
  In rq (snd (run search net)) -> req_method rq = GET ->
  net rq = Replied r -> Requests.is_error_status r = false -> resp_json r = inr v ->
  fst (run search net) = inl (PStr (Py.str v)).
Proof.
  subst search params.
  unfold search_amadeus_flights, _get_amadeus_token.
  py_cases; intros Hin Hget Hnet Hok Hjson.
  all: repeat match goal with
         | H : _ \/ _ |- _ => destruct H as [H | H]
         | H : False |- _ => destruct H
         end; subst; try discriminate Hget.
  all: try absurd_contains.
  all: congruence.
Qed.

(** Whether the flight-offers call is made does not depend on [travel_class]:
    no value of it is rejected. *)
Lemma travel_class_never_rejected :
  map endpoint_of (snd (run search net))
  = map endpoint_of
      (snd (run (search_amadeus_flights key secret origin_location_code
                   destination_location_code departure_date adults non_stop return_date
                   children infants None max_results) net)).
Proof.
  subst search params.
  unfold search_amadeus_flights, _get_amadeus_token.
  py_cases; try reflexivity; try absurd_contains; congruence.
Qed.

(** C6: the [travelClass] parameter of the flight-offers request is present
    exactly when the caller's [travel_class], uppercased, is one of ECONOMY,
    PREMIUM_ECONOMY, BUSINESS and FIRST, and its value is then the uppercased
    text; for any other [travel_class] the request carries no [travelClass],
    and the calls made are those of a search without [travel_class].  For a
    [travel_class] of ASCII characters, uppercasing turns the letters a to z
    into A to Z and leaves the rest: the parameter is the text so normalized,
    when that is one of the four names. *)
Theorem travel_class_sent_iff_enumerated :
  map endpoint_of (snd (run search net))
  = map endpoint_of
      (snd (run (search_amadeus_flights key secret origin_location_code
                   destination_location_code departure_date adults non_stop return_date
                   children infants None max_results) net))
  /\ forall rq,
       In rq (snd (run search net)) -> req_method rq = GET ->
       (forall v,
          req_fields rq !! "travelClass" = Some v
          <-> exists tc,
                travel_class = Some tc
                /\ In (Py.upper tc) ["ECONOMY"; "PREMIUM_ECONOMY"; "BUSINESS"; "FIRST"]
                /\ v = PStr (Py.upper tc))
       /\ (forall tc,
             travel_class = Some tc -> Py.is_ascii tc = true ->
             req_fields rq !! "travelClass"
             = if existsb (String.eqb (Py.OnAscii.upper tc))
                    ["ECONOMY"; "PREMIUM_ECONOMY"; "BUSINESS"; "FIRST"]
               then Some (PStr (Py.OnAscii.upper tc)) else None).
Proof.
  split; [exact travel_class_never_rejected |].
  intros rq Hin Hget.
  rewrite (flight_get_request rq Hin Hget), flight_params_travelClass.
  split.
  - intros v. destruct travel_class as [tc|].
    + destruct (existsb _ _) eqn:E.
      * apply existsb_exists in E as [x [Hx Heq]]. apply String.eqb_eq in Heq. subst x.
        split.
        -- intros [= <-]. eauto.
        -- intros [tc' [[= <-] [_ ->]]]. reflexivity.
      * split; [discriminate |].
        intros [tc' [[= <-] [Hx _]]].
        assert (existsb (String.eqb (Py.upper tc))
                  ["ECONOMY"; "PREMIUM_ECONOMY"; "BUSINESS"; "FIRST"] = true) as E'.
        { apply existsb_exists. exists (Py.upper tc).
          split; [exact Hx | apply String.eqb_refl]. }
        congruence.
    + split; [discriminate |]. intros [tc [[=] _]].
  - intros tc -> Hascii. rewrite (Py.upper_ascii tc Hascii). reflexivity.
Qed.

(** C9: the [children] and [infants] parameters of the flight-offers request
    are present exactly when the argument is greater than zero, with the
    argument as value; with [children=0] and [infants=0] neither is sent. *)
Theorem children_infants_sent_iff_positive rq :
  In rq (snd (run search net)) -> req_method rq = GET ->
  (forall v, req_fields rq !! "children" = Some v <-> 0 < children /\ v = PInt children)
  /\ (forall v, req_fields rq !! "infants" = Some v <-> 0 < infants /\ v = PInt infants)
  /\ (children = 0 -> infants = 0 ->
      req_fields rq !! "children" = None /\ req_fields rq !! "infants" = None).
Proof.
  intros Hin Hget.
  rewrite (flight_get_request rq Hin Hget), flight_params_children, flight_params_infants.
  repeat split.
  all: try (destruct (Z.ltb_spec 0 children); intros; intuition (try congruence; try lia)).
  all: try (destruct (Z.ltb_spec 0 infants); intros; intuition (try congruence; try lia)).
Qed.

(** C7, as the code has it: when the flight-offers call gets a 2xx response
    whose body decodes as JSON, the result is Python's [str()] of the decoded
    document, whatever its structure: for a JSON object the rendering of the
    dictionary, with [repr] of its keys and values. *)
Theorem flight_success_returns_str_of_json rq r v :
  In rq (snd (run search net)) -> req_method rq = GET ->
  net rq = Replied r -> 200 <= status_code r < 300 -> resp_json r = inr v ->
  fst (run search net) = inl (PStr (Py.str v)).
Proof.
  intros Hin Hget Hnet Hstatus Hjson.
  apply (flight_result_of_body rq r v); auto using success_status_not_error.
Qed.

(** C2, flight path: a 2xx token response that is a JSON object without
    [access_token] makes [_get_amadeus_token] return [None] as if it were a
    token, and the flight search then raises [TypeError] at
    ["Error" in token]: no error result reaches the caller. *)
Theorem flight_token_without_field_raises r d :
  Py.truthy_opt key && Py.truthy_opt secret = true ->
  net (flight_token_request key secret) = Replied r ->
  200 <= status_code r < 300 ->
  resp_json r = inr (PDict d) -> Py.assoc "access_token" d = None ->
  run (_get_amadeus_token key secret) net = (inl PNone, [flight_token_request key secret])
  /\ exists e, exn_cls e = TypeError
               /\ run search net = (inr e, [flight_token_request key secret]).
Proof.
  intros Hcred Hnet Hstatus Hjson Hfield.
  apply success_status_not_error in Hstatus.
  apply andb_true_iff in Hcred as [Hk Hs].
  subst search params.
  unfold search_amadeus_flights, _get_amadeus_token, flight_token_request in *.
  unfold_py. rewrite Hk, Hs. unfold_py. rewrite Hnet. unfold_py.
  rewrite Hstatus. unfold_py. rewrite Hjson. unfold_py. rewrite Hfield. unfold_py.
  split; [reflexivity |]. eexists. split; [| reflexivity]. reflexivity.
Qed.

End Flights.

(** ** The hotel client *)

(** The list comprehension reads no network; it completes with identifiers
    taken, in order, from entries of the list, or raises [AttributeError] at an
    entry that is not a dictionary. *)
Lemma collect_hotel_ids_spec l net log :
  match collect_hotel_ids l net log with
  | (Normal ids, log') =>
      log' = log /\ exists hs, sublist hs l /\ Forall2 has_hotel_id hs ids
  | (Return _, _) => False
  | (Raise e, log') => log' = log /\ exn_cls e = AttributeError
  end.
Proof.
  induction l as [|h l IH]; cbn [collect_hotel_ids].
  - unfold_py. split; [reflexivity |]. exists []. split; constructor.
  - destruct h; unfold_py; try (split; reflexivity).
    destruct (Py.assoc "hotelId" d) as [id|] eqn:Hid.
    + destruct (Py.truthy id).
      * unfold_py.
        destruct (collect_hotel_ids l net log) as [[ids|v|e] log']; unfold_py; try exact IH.
        destruct IH as [-> [hs [Hsub Hall]]]. split; [reflexivity |].
        exists (PDict d :: hs). split.
        -- now apply sublist_skip.
        -- constructor; [| exact Hall]. exists d. auto.
      * destruct (collect_hotel_ids l net log) as [[ids|v|e] log']; try exact IH.
        destruct IH as [-> [hs [Hsub Hall]]]. split; [reflexivity |].
        exists hs. split; [now apply sublist_cons | exact Hall].
    + cbn [Py.truthy].
      destruct (collect_hotel_ids l net log) as [[ids|v|e] log']; try exact IH.
      destruct IH as [-> [hs [Hsub Hall]]]. split; [reflexivity |].
      exists hs. split; [now apply sublist_cons | exact Hall].
Qed.

Lemma collect_hotel_ids_raise_plain l net log e log' :
  collect_hotel_ids l net log = (Raise e, log') -> exn_response e = None.
Proof.
  induction l as [|h l IH]; cbn [collect_hotel_ids].
  - unfold_py. discriminate.
  - destruct h; unfold_py; try (intros [= <- _]; reflexivity).
    destruct (Py.truthy _); unfold_py.
    + destruct (collect_hotel_ids l net log) as [[ids|v|e0] log0]; unfold_py;
        try discriminate.
      intros [= <- <-]. now apply IH.
    + exact IH.
Qed.

(** [",".join] reads no network either; it completes or raises [TypeError]. *)
Lemma py_join_items_spec l : forall i net log,
  match py_join_items i l net log with
  | (Normal _, log') => log' = log
  | (Return _, _) => False
  | (Raise e, log') => log' = log /\ exn_cls e = TypeError
  end.
Proof.
  induction l as [|v l IH]; intros i net log; cbn [py_join_items].
  - reflexivity.
  - destruct v; unfold_py; try (split; reflexivity).
    specialize (IH (i + 1) net log).
    destruct (py_join_items (i + 1) l net log) as [[items|v|e] log']; exact IH.
Qed.

Lemma py_join_spec sep l net log :
  match py_join sep l net log with
  | (Normal _, log') => log' = log
  | (Return _, _) => False
  | (Raise e, log') => log' = log /\ exn_cls e = TypeError
  end.
Proof.
  unfold py_join. unfold_py.
  pose proof (py_join_items_spec l 0 net log) as H.
  destruct (py_join_items 0 l net log) as [[items|v|e] log']; exact H.
Qed.

(** The slice keeps a prefix. *)
Lemma slice_to_take {X : Type} (n : Z) (l : list X) :
  exists k, Py.slice_to n l = take k l.
Proof. unfold Py.slice_to. destruct (Z.leb 0 n); eexists; reflexivity. Qed.

Lemma slice_to_length {X : Type} (n : Z) (l : list X) :
  0 <= n -> Z.of_nat (length (Py.slice_to n l)) <= n.
Proof.
  intros H. unfold Py.slice_to.
  destruct (Z.leb_spec 0 n); [| lia].
  rewrite length_take. lia.
Qed.

(** Lines 152 and 153 read no network. *)
Lemma hotel_ids_of_spec max_hotels r net log :
  match hotel_ids_of max_hotels r net log with
  | (Normal _, log') => log' = log
  | (Return _, _) => False
  | (Raise e, log') => log' = log
  end.
Proof.
  unfold hotel_ids_of. unfold_py.
  repeat (case_inner; unfold_py); try reflexivity.
  all: match goal with
       | H : collect_hotel_ids ?l ?n ?g = _ |- _ =>
           pose proof (collect_hotel_ids_spec l n g) as Hs; rewrite H in Hs
       end; tauto.
Qed.

Section Hotels.

Context {U : Py.Unicode}.
Variables key secret : option string.
Variables (city_code check_in_date check_out_date : string) (adults : Z)
          (use_test_env : bool) (radius_km max_hotels : Z)
          (currency price_range : string) (room_quantity : Z) (view : string).
Variable net : network.

Let auth : py pyval := hotel_auth key secret use_test_env.
Let listing : pyval -> py (list pyval) :=
  hotel_list city_code use_test_env radius_km max_hotels.
Let offers : pyval -> list pyval -> py unit :=
  hotel_offers check_in_date check_out_date adults use_test_env currency price_range
    room_quantity view.
Let search : py pyval :=
  search_amadeus_hotels key secret city_code check_in_date check_out_date adults
    use_test_env radius_km max_hotels currency price_range room_quantity view.
Let A : request := token_request key secret use_test_env.
Let L : pyval -> request := list_request city_code use_test_env radius_km.
Let O : pyval -> string -> request :=
  offers_request check_in_date check_out_date adults use_test_env currency price_range
    room_quantity view.

(** *** The AUTH block *)

Lemma auth_attempt_spec log :
  match auth_attempt key secret use_test_env net log with
  | (Normal tok, log') => log' = (log ++ [A])%list /\ Py.truthy tok = true
  | (Return d, log') =>
      log' = (log ++ [A])%list
      /\ exists details, d = auth_error "No access_token in token response" details
  | (Raise e, log') => log' = (log ++ [A])%list
  end.
Proof.
  unfold A. unfold auth_attempt, token_request.
  py_cases; repeat split; eauto; now apply negb_false_iff.
Qed.

Lemma hotel_auth_spec log :
  match auth net log with
  | (Normal tok, log') => log' = (log ++ [A])%list /\ Py.truthy tok = true
  | (Return d, log') =>
      log' = (log ++ [A])%list /\ exists msg details, d = auth_error msg details
  | (Raise e, log') =>
      log' = (log ++ [A])%list /\ isinstance e [RequestException] = false
      /\ In (exn_cls e) [AttributeError; ValueError; RecursionError]
  end.
Proof.
  unfold auth, A. unfold hotel_auth, auth_attempt, token_request.
  py_cases; repeat split; eauto; try (now apply negb_false_iff); cbn; tauto.
Qed.

(** An exception of the AUTH body that its clause names becomes the
    authentication error. *)
Lemma hotel_auth_handles e log log' :
  auth_attempt key secret use_test_env net log = (Raise e, log') ->
  isinstance e [RequestException] = true ->
  auth net log
  = (Return (auth_error "Amadeus authentication failed" (error_details e)), log').
Proof.
  intros H Hi. unfold auth. unfold hotel_auth, try_except. rewrite H.
  cbn [dispatch]. rewrite Hi. reflexivity.
Qed.

(** Any other exception of the AUTH body leaves the block as it is. *)
Lemma hotel_auth_escapes e log log' :
  auth_attempt key secret use_test_env net log = (Raise e, log') ->
  isinstance e [RequestException] = false ->
  auth net log = (Raise e, log').
Proof.
  intros H Hi. unfold auth. unfold hotel_auth, try_except. rewrite H.
  cbn [dispatch]. rewrite Hi. reflexivity.
Qed.

Lemma hotel_auth_passes d log log' :
  auth_attempt key secret use_test_env net log = (Return d, log') ->
  auth net log = (Return d, log').
Proof.
  intros H. unfold auth. unfold hotel_auth, try_except. rewrite H. reflexivity.
Qed.

(** *** The STEP 1 block *)



Lemma list_attempt_spec tok log :
  match list_attempt city_code use_test_env radius_km max_hotels tok net log with
  | (Normal _, log') => log' = (log ++ [L tok])%list
  | (Return _, _) => False
  | (Raise e, log') => log' = (log ++ [L tok])%list
  end.
Proof.
  unfold L. unfold list_attempt, list_request. unfold_py.
  destruct (net _) as [msg att|r]; unfold_py; [reflexivity |].
  destruct (Requests.is_error_status r); unfold_py; [reflexivity |].
  match goal with
  | |- context [hotel_ids_of ?m ?r ?n ?g] =>
      pose proof (hotel_ids_of_spec m r n g) as H;
      destruct (hotel_ids_of m r n g) as [[ids|v|e] log']
  end; subst; tauto.
Qed.

Lemma hotel_list_spec tok log :
  match listing tok net log with
  | (Normal _, log') => log' = (log ++ [L tok])%list
  | (Return d, log') =>
      log' = (log ++ [L tok])%list
      /\ exists msg, (exists details, d = step_error msg details 1)
                     \/ d = step_error_plain msg 1
  | (Raise e, log') =>
      log' = (log ++ [L tok])%list
      /\ isinstance e [RequestException; ValueError; KeyError; TypeError] = false
  end.
Proof.
  unfold listing. unfold hotel_list, try_except.
  pose proof (list_attempt_spec tok log) as H.
  destruct (list_attempt _ _ _ _ _ _ _) as [[ids|v|e] log'];
    [exact H | contradiction |].
  cbn [dispatch].
  destruct (isinstance e [RequestException]) eqn:E1;
    cbv beta iota delta [return_ raise].
  { split; [exact H |]. eauto. }
  destruct (isinstance e [ValueError; KeyError; TypeError]) eqn:E2;
    cbv beta iota delta [return_ raise].
  { split; [exact H |]. eauto. }
  split; [exact H |].
  unfold isinstance in *. cbn [existsb] in *.
  destruct (exn_cls e); cbn in *; congruence.
Qed.

Lemma hotel_list_handles tok e log log' :
  list_attempt city_code use_test_env radius_km max_hotels tok net log = (Raise e, log') ->
  isinstance e [RequestException; ValueError; KeyError; TypeError] = true ->
  exists d, listing tok net log = (Return d, log')
            /\ Py.assoc "step" (match d with PDict kv => kv | _ => [] end) = Some (PInt 1)
            /\ exists msg, Py.assoc "error" (match d with PDict kv => kv | _ => [] end)
                           = Some (PStr msg).
Proof.
  intros H Hi. unfold listing. unfold hotel_list, try_except. rewrite H.
  cbn [dispatch].
  destruct (isinstance e [RequestException]) eqn:E1.
  { eexists. split; [reflexivity |]. cbn. eauto. }
  destruct (isinstance e [ValueError; KeyError; TypeError]) eqn:E2.
  { eexists. split; [reflexivity |]. cbn. eauto. }
  unfold isinstance in *. cbn [existsb] in *.
  destruct (exn_cls e); cbn in *; congruence.
Qed.

Lemma hotel_list_escapes tok e log log' :
  list_attempt city_code use_test_env radius_km max_hotels tok net log = (Raise e, log') ->
  isinstance e [RequestException; ValueError; KeyError; TypeError] = false ->
  listing tok net log = (Raise e, log').
Proof.
  intros H Hi. unfold listing. unfold hotel_list, try_except. rewrite H.
  cbn [dispatch].
  assert (isinstance e [RequestException] = false
          /\ isinstance e [ValueError; KeyError; TypeError] = false) as [-> ->].
  { unfold isinstance in *. cbn [existsb] in *.
    destruct (exn_cls e); cbn in *; split; congruence. }
  reflexivity.
Qed.

(** *** The STEP 2 block *)

Lemma offers_attempt_spec tok joined log :
  match offers_attempt check_in_date check_out_date adults use_test_env currency
          price_range room_quantity view tok joined net log with
  | (Normal _, _) => False
  | (Return _, log') => log' = (log ++ [O tok joined])%list
  | (Raise e, log') =>
      log' = (log ++ [O tok joined])%list
      /\ (isinstance e [RequestException] = true
          \/ exn_cls e = ValueError \/ exn_cls e = RecursionError)
  end.
Proof.
  unfold O. unfold offers_attempt, offers_request.
  py_cases; repeat split; auto.
Qed.

Lemma hotel_offers_spec tok ids log :
  match offers tok ids net log with
  | (Normal _, _) => False
  | (Return _, log') =>
      exists joined, py_join "," ids net log = (Normal joined, log)
                     /\ log' = (log ++ [O tok joined])%list
  | (Raise e, log') =>
      (log' = log /\ exn_cls e = TypeError
       /\ py_join "," ids net log = (Raise e, log))
      \/ exists joined,
           py_join "," ids net log = (Normal joined, log)
           /\ log' = (log ++ [O tok joined])%list
           /\ (exn_cls e = ValueError \/ exn_cls e = RecursionError)
  end.
Proof.
  unfold offers. unfold hotel_offers. cbv beta iota delta [bind].
  pose proof (py_join_spec "," ids net log) as Hj.
  destruct (py_join "," ids net log) as [[joined|v|e] log1];
    [subst log1 | contradiction | destruct Hj as [-> Hj]; auto].
  unfold try_except.
  pose proof (offers_attempt_spec tok joined log) as Ho.
  destruct (offers_attempt _ _ _ _ _ _ _ _ _ _ _ _) as [[u|v|e] log'];
    [contradiction | eauto |].
  destruct Ho as [-> Hcls]. cbn [dispatch].
  destruct (isinstance e [RequestException]) eqn:Hi;
    cbv beta iota delta [return_ raise]; [eauto |].
  right. exists joined. destruct Hcls as [Hcls | Hcls]; [discriminate | auto].
Qed.

Lemma hotel_offers_handles tok ids joined e log log' :
  py_join "," ids net log = (Normal joined, log) ->
  offers_attempt check_in_date check_out_date adults use_test_env currency
    price_range room_quantity view tok joined net log = (Raise e, log') ->
  isinstance e [RequestException] = true ->
  offers tok ids net log
  = (Return (step_error "Hotel Offers API error" (error_details e) 2), log').
Proof.
  intros Hj Ha Hi. unfold offers. unfold hotel_offers.
  cbv beta iota delta [bind]. rewrite Hj. unfold try_except. rewrite Ha.
  cbn [dispatch]. rewrite Hi. reflexivity.
Qed.

Lemma hotel_offers_escapes tok ids joined e log log' :
  py_join "," ids net log = (Normal joined, log) ->
  offers_attempt check_in_date check_out_date adults use_test_env currency
    price_range room_quantity view tok joined net log = (Raise e, log') ->
  isinstance e [RequestException] = false ->
  offers tok ids net log = (Raise e, log').
Proof.
  intros Hj Ha Hi. unfold offers. unfold hotel_offers.
  cbv beta iota delta [bind]. rewrite Hj. unfold try_except. rewrite Ha.
  cbn [dispatch]. rewrite Hi. reflexivity.
Qed.

Lemma hotel_offers_join_raises tok ids e log log' :
  py_join "," ids net log = (Raise e, log') ->
  offers tok ids net log = (Raise e, log').
Proof.
  intros Hj. unfold offers. unfold hotel_offers.
  cbv beta iota delta [bind]. rewrite Hj. reflexivity.
Qed.

(** *** The chain *)

(** The result of a search, from what its blocks come to. *)
Lemma run_auth_return d log :
  auth net [] = (Return d, log) -> run search net = (inl d, log).
Proof.
  intros Ha. unfold search. unfold search_amadeus_hotels.
  cbv beta iota delta [run call bind]. fold auth. rewrite Ha. reflexivity.
Qed.

Lemma run_auth_raise e log :
  auth net [] = (Raise e, log) -> run search net = (inr e, log).
Proof.
  intros Ha. unfold search. unfold search_amadeus_hotels.
  cbv beta iota delta [run call bind]. fold auth. rewrite Ha. reflexivity.
Qed.

Lemma run_list_return tok log1 d log2 :
  auth net [] = (Normal tok, log1) -> listing tok net log1 = (Return d, log2) ->
  run search net = (inl d, log2).
Proof.
  intros Ha Hl. unfold search. unfold search_amadeus_hotels.
  cbv beta iota delta [run call bind]. fold auth. rewrite Ha.
  fold listing. rewrite Hl. reflexivity.
Qed.

Lemma run_list_raise tok log1 e log2 :
  auth net [] = (Normal tok, log1) -> listing tok net log1 = (Raise e, log2) ->
  run search net = (inr e, log2).
Proof.
  intros Ha Hl. unfold search. unfold search_amadeus_hotels.
  cbv beta iota delta [run call bind]. fold auth. rewrite Ha.
  fold listing. rewrite Hl. reflexivity.
Qed.

Lemma run_list_empty tok log1 log2 :
  auth net [] = (Normal tok, log1) -> listing tok net log1 = (Normal [], log2) ->
  run search net = (inl (no_hotels_found city_code), log2).
Proof.
  intros Ha Hl. unfold search. unfold search_amadeus_hotels.
  cbv beta iota delta [run call bind]. fold auth. rewrite Ha.
  fold listing. rewrite Hl. reflexivity.
Qed.

Lemma run_offers_raise tok log1 ids log2 e log3 :
  auth net [] = (Normal tok, log1) -> listing tok net log1 = (Normal ids, log2) ->
  ids <> [] -> offers tok ids net log2 = (Raise e, log3) ->
  run search net = (inr e, log3).
Proof.
  intros Ha Hl Hne Ho. unfold search. unfold search_amadeus_hotels.
  cbv beta iota delta [run call bind]. fold auth. rewrite Ha.
  fold listing. rewrite Hl.
  destruct ids as [|id ids]; [destruct (Hne eq_refl) |]. cbn [Py.truthy negb].
  fold offers. rewrite Ho. reflexivity.
Qed.

Lemma run_offers_return tok log1 ids log2 v log3 :
  auth net [] = (Normal tok, log1) -> listing tok net log1 = (Normal ids, log2) ->
  ids <> [] -> offers tok ids net log2 = (Return v, log3) ->
  run search net = (inl v, log3).
Proof.
  intros Ha Hl Hne Ho. unfold search. unfold search_amadeus_hotels.
  cbv beta iota delta [run call bind]. fold auth. rewrite Ha.
  fold listing. rewrite Hl.
  destruct ids as [|id ids]; [destruct (Hne eq_refl) |]. cbn [Py.truthy negb].
  fold offers. rewrite Ho. reflexivity.
Qed.

(** How a search ends, by the stage it stops at. *)
Lemma hotel_run_cases :
  (exists d, auth net [] = (Return d, [A]) /\ run search net = (inl d, [A]))
  \/ (exists e, auth net [] = (Raise e, [A]) /\ run search net = (inr e, [A]))
  \/ exists tok,
       auth net [] = (Normal tok, [A])
       /\ ((exists d, listing tok net [A] = (Return d, [A; L tok])
                      /\ run search net = (inl d, [A; L tok]))
           \/ (exists e, listing tok net [A] = (Raise e, [A; L tok])
                         /\ run search net = (inr e, [A; L tok]))
           \/ (listing tok net [A] = (Normal [], [A; L tok])
               /\ run search net = (inl (no_hotels_found city_code), [A; L tok]))
           \/ exists ids,
                ids <> [] /\ listing tok net [A] = (Normal ids, [A; L tok])
                /\ ((exists e, py_join "," ids net [A; L tok] = (Raise e, [A; L tok])
                               /\ run search net = (inr e, [A; L tok]))
                    \/ exists joined,
                         py_join "," ids net [A; L tok] = (Normal joined, [A; L tok])
                         /\ ((exists v,
                                offers tok ids net [A; L tok]
                                = (Return v, [A; L tok; O tok joined])
                                /\ run search net = (inl v, [A; L tok; O tok joined]))
                             \/ (exists e,
                                   offers tok ids net [A; L tok]
                                   = (Raise e, [A; L tok; O tok joined])
                                   /\ (exn_cls e = ValueError \/ exn_cls e = RecursionError)
                                   /\ run search net
                                      = (inr e, [A; L tok; O tok joined]))))).
Proof.
  pose proof (hotel_auth_spec []) as Ha.
  destruct (auth net []) as [[tok|d|e] log1] eqn:Hauth; cbn [app] in Ha.
  2: { destruct Ha as [-> _]. left. eauto using run_auth_return. }
  2: { destruct Ha as [-> _]. right. left. eauto using run_auth_raise. }
  destruct Ha as [-> _]. right. right. exists tok. split; [reflexivity |].
  pose proof (hotel_list_spec tok [A]) as Hl.
  destruct (listing tok net [A]) as [[ids|d|e] log2] eqn:Hlist; cbn [app] in Hl.
  2: { destruct Hl as [-> _]. left. eauto using run_list_return. }
  2: { destruct Hl as [-> _]. right. left. eauto using run_list_raise. }
  subst log2. right. right.
  destruct ids as [|id ids].
  { left. eauto using run_list_empty. }
  right. exists (id :: ids). split; [discriminate |]. split; [reflexivity |].
  assert (id :: ids <> []) as Hne by discriminate.
  pose proof (hotel_offers_spec tok (id :: ids) [A; L tok]) as Ho.
  destruct (offers tok (id :: ids) net [A; L tok]) as [[u|v|e] log3] eqn:Hoff.
  - contradiction.
  - destruct Ho as [joined [Hj ->]]. right. exists joined. split; [exact Hj |].
    left. exists v. cbn [app]. eauto using run_offers_return.
  - destruct Ho as [[-> [_ Hj]] | [joined [Hj [-> Hcls]]]].
    + left. exists e. eauto using run_offers_raise.
    + right. exists joined. split; [exact Hj |]. right. exists e. cbn [app].
      eauto using run_offers_raise.
Qed.

(** The three endpoints are distinct. *)
Lemma offers_url_not_token : HOTEL_OFFERS_URL use_test_env <> hotel_TOKEN_URL use_test_env.
Proof. destruct use_test_env; vm_compute; discriminate. Qed.

Lemma offers_url_not_list : HOTEL_OFFERS_URL use_test_env <> HOTEL_LIST_URL use_test_env.
Proof. destruct use_test_env; vm_compute; discriminate. Qed.

Lemma endpoints_distinct : NoDup (endpoints use_test_env).
Proof.
  unfold endpoints. repeat apply NoDup_cons_2; try apply NoDup_nil_2.
  all: rewrite ?not_elem_of_cons; repeat split; try discriminate;
    try apply not_elem_of_nil.
  intros [= H]. symmetry in H. exact (offers_url_not_list H).
Qed.

(** The calls of a search, whatever happens: a prefix of the chain. *)
Lemma hotel_calls :
  snd (run search net) = [A]
  \/ (exists tok, snd (run search net) = [A; L tok])
  \/ exists tok joined, snd (run search net) = [A; L tok; O tok joined].
Proof.
  pose proof hotel_run_cases as H.
  repeat match goal with
         | H : _ \/ _ |- _ => destruct H as [H | H]
         | H : _ /\ _ |- _ => destruct H as [? H]
         | H : exists _, _ |- _ => destruct H as [? H]
         end; rewrite H; cbn [snd]; eauto.
Qed.

(** The offers request of a search, when there is one. *)
Lemma hotel_offers_request rq :
  In rq (snd (run search net)) -> req_url rq = HOTEL_OFFERS_URL use_test_env ->
  exists tok joined, rq = O tok joined.
Proof.
  intros Hin Hurl.
  destruct hotel_calls as [H | [[tok H] | [tok [joined H]]]]; rewrite H in Hin;
    cbn [In] in Hin.
  - destruct Hin as [<- | []]. symmetry in Hurl. destruct (offers_url_not_token Hurl).
  - destruct Hin as [<- | [<- | []]]; symmetry in Hurl;
      [destruct (offers_url_not_token Hurl) | destruct (offers_url_not_list Hurl)].
  - destruct Hin as [<- | [<- | [<- | []]]]; symmetry in Hurl;
      [destruct (offers_url_not_token Hurl) | destruct (offers_url_not_list Hurl) | eauto].
Qed.

(** *** The optional parameters of the offers request *)

Lemma offer_params_view joined :
  offer_params check_in_date check_out_date adults currency price_range room_quantity
    view joined !! "view"
  = Some (PStr (if String.eqb view "" then "FULL" else view)).
Proof.
  unfold offer_params. cbn [Py.truthy].
  destruct (String.eqb view ""), (String.eqb price_range ""), (String.eqb currency "");
    cbn [negb]; map_lookup; reflexivity.
Qed.

Lemma offer_params_priceRange joined :
  offer_params check_in_date check_out_date adults currency price_range room_quantity
    view joined !! "priceRange"
  = Some (PStr price_range).
Proof.
  unfold offer_params. cbn [Py.truthy].
  destruct (String.eqb view ""), (String.eqb price_range ""), (String.eqb currency "");
    cbn [negb]; map_lookup; reflexivity.
Qed.

Lemma offer_params_currency joined :
  offer_params check_in_date check_out_date adults currency price_range room_quantity
    view joined !! "currency"
  = if String.eqb currency "" then None else Some (PStr currency).
Proof.
  unfold offer_params. cbn [Py.truthy].
  destruct (String.eqb view ""), (String.eqb price_range ""), (String.eqb currency "");
    cbn [negb]; map_lookup; reflexivity.
Qed.

(** C3, against the comments [set "" to omit]: the offers request always
    carries [priceRange] and [view].  With [view=""] it is sent as [FULL], with
    [price_range=""] as the empty text.  Only [currency] is left out when
    empty. *)
Theorem empty_view_and_price_range_are_sent rq :
  In rq (snd (run search net)) -> req_url rq = HOTEL_OFFERS_URL use_test_env ->
  (view = "" -> req_fields rq !! "view" = Some (PStr "FULL"))
  /\ (price_range = "" -> req_fields rq !! "priceRange" = Some (PStr ""))
  /\ (req_fields rq !! "currency" = None <-> currency = "").
Proof.
  intros Hin Hurl.
  destruct (hotel_offers_request rq Hin Hurl) as [tok [joined ->]].
  unfold O. cbn [offers_request req_fields].
  rewrite offer_params_view, offer_params_priceRange, offer_params_currency.
  repeat split.
  - intros ->. reflexivity.
  - intros ->. reflexivity.
  - destruct (String.eqb_spec currency ""); [auto | discriminate].
  - intros ->. reflexivity.
Qed.

(** C4: when authentication and the hotel-list stage succeed and no
    identifier is left, the search returns the step-1 "No hotels found" error
    after the token and list calls, and no call goes to the offers endpoint. *)
Theorem no_hotels_stops_before_offers tok log1 log2 :
  auth net [] = (Normal tok, log1) ->
  listing tok net log1 = (Normal [], log2) ->
  run search net
  = (inl (PDict [("error", PStr ("No hotels found in " ++ city_code
                                 ++ ". Check city code or increase radius."));
                 ("step", PInt 1)]),
     [A; L tok])
  /\ Forall (fun rq => req_url rq <> HOTEL_OFFERS_URL use_test_env) (snd (run search net)).
Proof.
  intros Ha Hl.
  destruct hotel_run_cases
    as [[d [Ha' _]] | [[e [Ha' _]] | [tok' [Ha' H]]]]; rewrite Ha in Ha';
    try discriminate Ha'.
  injection Ha' as <- ->.
  destruct H as [[d [Hl' _]] | [[e [Hl' _]] | [[_ Hrun] | [ids [Hne [Hl' _]]]]]];
    try (rewrite Hl in Hl'; discriminate Hl').
  - rewrite Hrun. split; [reflexivity |]. cbn [snd].
    repeat constructor; cbn [req_url A L token_request list_request]; intros H;
      symmetry in H; [exact (offers_url_not_token H) | exact (offers_url_not_list H)].
  - rewrite Hl in Hl'. injection Hl' as <- _. destruct (Hne eq_refl).
Qed.

Ltac calls_prefix :=
  first [ exists []; reflexivity
        | eexists [_]; reflexivity ].

(** C5, against the docstring ("on error includes {"error": "...", "step":
    ...}"): the calls of a search are a prefix of the chain token, list,
    offers (so each stage is attempted at most once, in order), and a stage
    that fails ends the search with no call of a later stage.  When the stage
    handles its failure the result is an error carrying that stage's [step],
    the last call being that stage's.  An exception that none of its [except]
    clauses names reaches the caller as it is, with no [step]. *)
Theorem chain_stops_at_failing_stage :
  prefix (map endpoint_of (snd (run search net))) (endpoints use_test_env)
  /\ NoDup (map endpoint_of (snd (run search net)))
  /\ forall s esc,
       fails key secret city_code check_in_date check_out_date adults use_test_env
         radius_km max_hotels currency price_range room_quantity view net s esc ->
       prefix (map endpoint_of (snd (run search net))) (stage_calls use_test_env s)
       /\ match esc with
          | None =>
              tagged (stage_tag s) (fst (run search net))
              /\ map endpoint_of (snd (run search net)) = stage_calls use_test_env s
          | Some e => fst (run search net) = inr e
          end.
Proof.
  assert (prefix (map endpoint_of (snd (run search net))) (endpoints use_test_env)) as Hp.
  { destruct hotel_calls as [H | [[tok H] | [tok [joined H]]]]; rewrite H.
    - exists [(GET, HOTEL_LIST_URL use_test_env); (GET, HOTEL_OFFERS_URL use_test_env)].
      reflexivity.
    - exists [(GET, HOTEL_OFFERS_URL use_test_env)]. reflexivity.
    - exists []. reflexivity. }
  split; [exact Hp |]. split.
  { destruct Hp as [k Hk]. pose proof endpoints_distinct as Hd.
    rewrite Hk in Hd. apply NoDup_app in Hd. tauto. }
  intros s esc Hf.
  destruct Hf as [e log Hatt | d log Hatt | tok log1 e log2 Ha Hatt
                  | tok log1 log2 Ha Hl | tok log1 ids log2 e log3 Ha Hl Hne Hj
                  | tok log1 ids log2 joined e log3 Ha Hl Hne Hj Hatt].
  - (* the AUTH body raised *)
    pose proof (auth_attempt_spec []) as Hs. rewrite Hatt in Hs. cbn [app] in Hs.
    subst log. unfold escaping.
    destruct (isinstance e [RequestException]) eqn:Hi.
    + rewrite (run_auth_return _ _ (hotel_auth_handles e [] _ Hatt Hi)).
      split; [calls_prefix |]. split; [| reflexivity].
      eexists. split; [reflexivity |]. cbn. eauto.
    + rewrite (run_auth_raise _ _ (hotel_auth_escapes e [] _ Hatt Hi)).
      split; [calls_prefix | reflexivity].
  - (* no token in the response *)
    pose proof (auth_attempt_spec []) as Hs. rewrite Hatt in Hs. cbn [app] in Hs.
    destruct Hs as [-> [details ->]].
    rewrite (run_auth_return _ _ (hotel_auth_passes _ [] _ Hatt)).
    split; [calls_prefix |]. split; [| reflexivity].
    eexists. split; [reflexivity |]. cbn. eauto.
  - (* the STEP 1 body raised *)
    pose proof (hotel_auth_spec []) as Hs. fold auth in Ha. rewrite Ha in Hs.
    cbn [app] in Hs. destruct Hs as [-> _].
    pose proof (list_attempt_spec tok [A]) as Hs. rewrite Hatt in Hs. cbn [app] in Hs.
    subst log2. unfold escaping.
    destruct (isinstance e [RequestException; ValueError; KeyError; TypeError]) eqn:Hi.
    + destruct (hotel_list_handles tok e [A] _ Hatt Hi) as [d [Hret [Hstep [msg Herr]]]].
      rewrite (run_list_return _ _ _ _ Ha Hret).
      split; [calls_prefix |].
      split; [| reflexivity].
      destruct d; try discriminate Hstep. eexists. split; [reflexivity |]. eauto.
    + rewrite (run_list_raise _ _ _ _ Ha (hotel_list_escapes tok e [A] _ Hatt Hi)).
      split; [calls_prefix | reflexivity].
  - (* no hotel left *)
    pose proof (hotel_auth_spec []) as Hs. fold auth in Ha. rewrite Ha in Hs.
    cbn [app] in Hs. destruct Hs as [-> _].
    pose proof (hotel_list_spec tok [A]) as Hs. fold listing in Hl. rewrite Hl in Hs.
    cbn [app] in Hs. subst log2.
    rewrite (run_list_empty _ _ _ Ha Hl).
    split; [calls_prefix |].
    split; [| reflexivity].
    eexists. split; [reflexivity |]. cbn. eauto.
  - (* [",".join] raised *)
    pose proof (hotel_auth_spec []) as Hs. fold auth in Ha. rewrite Ha in Hs.
    cbn [app] in Hs. destruct Hs as [-> _].
    pose proof (hotel_list_spec tok [A]) as Hs. fold listing in Hl. rewrite Hl in Hs.
    cbn [app] in Hs. subst log2.
    pose proof (py_join_spec "," ids net [A; L tok]) as Hs. rewrite Hj in Hs.
    destruct Hs as [-> _].
    rewrite (run_offers_raise _ _ _ _ _ _ Ha Hl Hne
               (hotel_offers_join_raises tok ids e _ _ Hj)).
    split; [calls_prefix | reflexivity].
  - (* the STEP 2 body raised *)
    pose proof (hotel_auth_spec []) as Hs. fold auth in Ha. rewrite Ha in Hs.
    cbn [app] in Hs. destruct Hs as [-> _].
    pose proof (hotel_list_spec tok [A]) as Hs. fold listing in Hl. rewrite Hl in Hs.
    cbn [app] in Hs. subst log2.
    pose proof (offers_attempt_spec tok joined [A; L tok]) as Hs. rewrite Hatt in Hs.
    cbn [app] in Hs. destruct Hs as [-> _]. unfold escaping.
    destruct (isinstance e [RequestException]) eqn:Hi.
    + rewrite (run_offers_return _ _ _ _ _ _ Ha Hl Hne
                 (hotel_offers_handles tok ids joined e _ _ Hj Hatt Hi)).
      split; [calls_prefix |]. split; [| reflexivity].
      eexists. split; [reflexivity |]. cbn. eauto.
    + rewrite (run_offers_raise _ _ _ _ _ _ Ha Hl Hne
                 (hotel_offers_escapes tok ids joined e _ _ Hj Hatt Hi)).
      split; [calls_prefix | reflexivity].
Qed.

(** *** The hotel identifiers *)

(** C8: the identifiers kept by the hotel-list stage are identifiers of
    entries of the provider's list, in the provider's order, and for a
    [max_hotels] that is a count (not negative) there are at most [max_hotels]
    of them. *)
Theorem selected_hotels_ordered_and_bounded tok log log' r d l ids :
  net (L tok) = Replied r -> resp_json r = inr (PDict d) ->
  match Py.assoc "data" d with Some v => v | None => PList [] end = PList l ->
  listing tok net log = (Normal ids, log') ->
  (exists hs, sublist hs l /\ Forall2 has_hotel_id hs ids)
  /\ (0 <= max_hotels -> Z.of_nat (length ids) <= max_hotels).
Proof.
  intros Hnet Hjson Hdata Hl.
  unfold listing in Hl. unfold hotel_list, try_except, list_attempt in Hl.
  unfold L in Hnet. unfold list_request in Hnet.
  revert Hl. unfold_py. rewrite Hnet. unfold_py.
  destruct (Requests.is_error_status r); unfold_py; [discriminate |].
  unfold hotel_ids_of. unfold_py. rewrite Hjson. unfold_py. rewrite Hdata. unfold_py.
  match goal with
  | |- context [collect_hotel_ids ?x ?n ?g] =>
      pose proof (collect_hotel_ids_spec x n g) as Hs;
      destruct (collect_hotel_ids x n g) as [[ids0|v|e] log0]
  end; unfold_py; [| contradiction |].
  - intros [= <- _]. destruct Hs as [_ [hs [Hsub Hall]]]. split.
    + destruct (slice_to_take max_hotels ids0) as [k ->].
      exists (take k hs). split.
      * etrans; [apply sublist_take | exact Hsub].
      * now apply Forall2_take.
    + apply slice_to_length.
  - destruct Hs as [_ Hcls]. unfold isinstance. rewrite Hcls. cbn. discriminate.
Qed.

(** What lines 152 and 153 raise carries no response. *)
Lemma hotel_ids_of_raise_plain r log e log' :
  hotel_ids_of max_hotels r net log = (Raise e, log') -> exn_response e = None.
Proof.
  unfold hotel_ids_of. unfold_py.
  repeat (case_inner; unfold_py); try discriminate;
    try (intros [= <- _]; reflexivity).
  all: intros [= <- _];
    match goal with
    | H : collect_hotel_ids _ _ _ = (Raise _, _) |- _ =>
        exact (collect_hotel_ids_raise_plain _ _ _ _ _ H)
    end.
Qed.

(** Only the decoding error of a body that is not JSON is a
    [RequestException]. *)
Lemma hotel_ids_of_request_exception r log e log' :
  hotel_ids_of max_hotels r net log = (Raise e, log') ->
  isinstance e [RequestException] = true
  <-> exists msg, resp_json r = inl (Malformed, msg).
Proof.
  unfold hotel_ids_of. unfold_py.
  destruct (resp_json r) as [[[] msg]|v]; unfold_py.
  1-3: intros [= <- _]; cbn; split; eauto; try discriminate; intros [? [=]].
  intros H. split; [| intros [? [=]]].
  revert H. repeat (case_inner; unfold_py); try discriminate;
    try (intros [= <- _]; cbn; discriminate).
  all: intros [= <- _];
    match goal with
    | H : collect_hotel_ids ?l ?n ?g = (Raise _, _) |- _ =>
        pose proof (collect_hotel_ids_spec l n g) as Hs; rewrite H in Hs;
        destruct Hs as [_ Hs]; unfold isinstance; rewrite Hs; cbn; discriminate
    end.
Qed.

(** C10: when extracting the identifiers from the hotel-list response raises
    a [ValueError], a [KeyError] or a [TypeError], the search returns an error
    dictionary with [step] 1 that carries the text of the exception, and
    nothing reaches the caller as an exception.  The text is in the message
    "Could not parse hotel IDs: ..."; for a body that is not JSON, whose
    decoding error is also a [RequestException], it is the [details] of
    "Hotel List API error". *)
Theorem hotel_list_parse_failure_is_tagged tok log1 r e :
  auth net [] = (Normal tok, log1) ->
  net (L tok) = Replied r -> Requests.is_error_status r = false ->
  hotel_ids_of max_hotels r net [A; L tok] = (Raise e, [A; L tok]) ->
  isinstance e [ValueError; KeyError; TypeError] = true ->
  run search net
  = (inl (if isinstance e [RequestException]
          then PDict [("error", PStr "Hotel List API error");
                      ("details", PStr (exn_str e)); ("step", PInt 1)]
          else PDict [("error", PStr ("Could not parse hotel IDs: " ++ exn_str e));
                      ("step", PInt 1)]),
     [A; L tok])
  /\ (isinstance e [RequestException] = true
      <-> exists msg, resp_json r = inl (Malformed, msg)).
Proof.
  intros Ha Hnet Hok Hraise Hi.
  split; [| exact (hotel_ids_of_request_exception _ _ _ _ Hraise)].
  pose proof (hotel_auth_spec []) as Hs. rewrite Ha in Hs. cbn [app] in Hs.
  destruct Hs as [-> _].
  pose proof (hotel_ids_of_raise_plain _ _ _ _ Hraise) as Hplain.
  apply (run_list_return tok [A]); [exact Ha |].
  assert (list_attempt city_code use_test_env radius_km max_hotels tok net [A]
          = (Raise e, [A; L tok])) as Hatt.
  { unfold list_attempt. unfold L in Hnet, Hraise |- *.
    unfold list_request in Hnet, Hraise |- *.
    unfold_py. rewrite Hnet. unfold_py. rewrite Hok. unfold_py. exact Hraise. }
  unfold listing. unfold hotel_list, try_except. rewrite Hatt. cbn [dispatch].
  destruct (isinstance e [RequestException]) eqn:E1;
    cbv beta iota delta [return_ raise].
  - unfold error_details. rewrite Hplain. reflexivity.
  - rewrite Hi. reflexivity.
Qed.

End Hotels.

(** ** Missing credentials *)

(** C1, against the guard of [_get_amadeus_token]: without credentials the
    flight search returns the configuration error and calls nothing, but the
    hotel search has no such guard and posts to the token endpoint, with the
    missing values in the form. *)
Theorem hotel_search_posts_without_credentials {U : Py.Unicode}
    key secret net
    origin_location_code destination_location_code departure_date flight_adults non_stop
    return_date children infants travel_class max_results
    city_code check_in_date check_out_date adults use_test_env radius_km max_hotels
    currency price_range room_quantity view :
  Py.truthy_opt key && Py.truthy_opt secret = false ->
  run (search_amadeus_flights key secret origin_location_code destination_location_code
         departure_date flight_adults non_stop return_date children infants travel_class
         max_results) net
  = (inl (PStr "Error: Amadeus API Key or Secret is not set in environment variables."),
     [])
  /\ exists rest,
       snd (run (search_amadeus_hotels key secret city_code check_in_date check_out_date
                   adults use_test_env radius_km max_hotels currency price_range
                   room_quantity view) net)
       = token_request key secret use_test_env :: rest.
Proof.
  intros Hcred. split.
  - unfold search_amadeus_flights. cbv beta iota delta [run call bind].
    rewrite (token_without_credentials key secret net [] Hcred).
    cbv beta iota delta [py_in pure return_].
    match goal with
    | |- context [Py.contains ?a ?b] => change (Py.contains a b) with true
    end.
    reflexivity.
  - destruct (hotel_calls key secret city_code check_in_date check_out_date adults
                use_test_env radius_km max_hotels currency price_range room_quantity
                view net) as [H | [[tok H] | [tok [joined H]]]]; rewrite H; eauto.
Qed.

(** ** Concrete runs *)

Section Concrete_runs.

#[local] Existing Instance Py.ascii_only.

Example repr_of_document :
  Py.repr (PDict [("data", PList [PInt (-3); PBool true; PStr "a\b"; PNone])])
  = "{'data': [-3, True, 'a\\b', None]}".
Proof. vm_compute. reflexivity. Qed.

(** [travel_class="economy"] is sent as [ECONOMY]; [travel_class="FOO"] is left
    out and the request is made all the same. *)
Example lowercase_economy_is_normalized :
  snd (run (sample_flight_search (Some "k") (Some "s") 0 0 (Some "economy")) healthy_network)
  = [flight_token_request (Some "k") (Some "s"); sample_flight_request (Some "economy")]
  /\ req_fields (sample_flight_request (Some "economy")) !! "travelClass"
     = Some (PStr "ECONOMY").
Proof. split; vm_compute; reflexivity. Qed.

Example unknown_travel_class_is_dropped :
  snd (run (sample_flight_search (Some "k") (Some "s") 0 0 (Some "FOO")) healthy_network)
  = [flight_token_request (Some "k") (Some "s"); sample_flight_request (Some "FOO")]
  /\ req_fields (sample_flight_request (Some "FOO")) !! "travelClass" = None.
Proof. split; vm_compute; reflexivity. Qed.

(** ** The statements at concrete inputs *)

(** With no credentials at all, on a network where everything works. *)
Lemma hotel_search_posts_without_credentials_witness :
  run (sample_flight_search None None 0 0 None) healthy_network
  = (inl (PStr "Error: Amadeus API Key or Secret is not set in environment variables."),
     [])
  /\ exists rest,
       snd (run (sample_hotel_search None None 5 "EUR" "1-10000" "") healthy_network)
       = token_request None None true :: rest.
Proof.
  apply (hotel_search_posts_without_credentials None None healthy_network
           "LHR" "NRT" "2026-01-10" 1 false None 0 0 None 3
           "PAR" "2026-01-10" "2026-01-12" 2 true 1000 5 "EUR" "1-10000" 1 "").
  reflexivity.
Defined.

(** The token endpoint answers [{}] with status 200. *)
Lemma flight_token_without_field_raises_witness :
  run (_get_amadeus_token (Some "k") (Some "s")) network_without_token_field
  = (inl PNone, [flight_token_request (Some "k") (Some "s")])
  /\ exists e,
       exn_cls e = TypeError
       /\ run (sample_flight_search (Some "k") (Some "s") 0 0 None)
            network_without_token_field
          = (inr e, [flight_token_request (Some "k") (Some "s")]).
Proof.
  apply (flight_token_without_field_raises (Some "k") (Some "s")
           "LHR" "NRT" "2026-01-10" 1 false None 0 0 None 3 network_without_token_field
           (json_response 200 "{}" (PDict [])) []).
  - reflexivity.
  - reflexivity.
  - change (200 <= 200 < 300). lia.
  - reflexivity.
  - reflexivity.
Defined.

(** [travel_class="economy"]. *)
Lemma travel_class_sent_iff_enumerated_witness :
  In (sample_flight_request (Some "economy"))
    (snd (run (sample_flight_search (Some "k") (Some "s") 0 0 (Some "economy"))
            healthy_network))
  /\ req_fields (sample_flight_request (Some "economy")) !! "travelClass"
     = Some (PStr "ECONOMY").
Proof.
  assert (In (sample_flight_request (Some "economy"))
            (snd (run (sample_flight_search (Some "k") (Some "s") 0 0 (Some "economy"))
                    healthy_network))) as Hin.
  { vm_compute. auto. }
  split; [exact Hin |].
  exact (proj2 (proj2 (travel_class_sent_iff_enumerated (Some "k") (Some "s")
                         "LHR" "NRT" "2026-01-10" 1 false None 0 0 (Some "economy") 3
                         healthy_network)
                  (sample_flight_request (Some "economy")) Hin eq_refl)
           "economy" eq_refl eq_refl).
Defined.

(** Two children, no infant. *)
Lemma children_infants_sent_iff_positive_witness :
  let rq := flight_offers_request (PStr "tok")
              (flight_params "LHR" "NRT" "2026-01-10" 1 false None 2 0 None 3) in
  (forall v, req_fields rq !! "children" = Some v <-> 0 < 2 /\ v = PInt 2)
  /\ (forall v, req_fields rq !! "infants" = Some v <-> 0 < 0 /\ v = PInt 0)
  /\ (2 = 0 -> 0 = 0 ->
      req_fields rq !! "children" = None /\ req_fields rq !! "infants" = None).
Proof.
  intros rq.
  apply (children_infants_sent_iff_positive (Some "k") (Some "s")
           "LHR" "NRT" "2026-01-10" 1 false None 2 0 None 3 healthy_network rq).
  - vm_compute. auto.
  - reflexivity.
Defined.

(** The flight-offers endpoint answers [{"data": []}] with status 200. *)
Lemma flight_success_returns_str_of_json_witness :
  fst (run (sample_flight_search (Some "k") (Some "s") 0 0 None) healthy_network)
  = inl (PStr (Py.str (PDict [("data", PList [])]))).
Proof.
  apply (flight_success_returns_str_of_json (Some "k") (Some "s")
           "LHR" "NRT" "2026-01-10" 1 false None 0 0 None 3 healthy_network
           (sample_flight_request None)
           (json_response 200 empty_data_body (PDict [("data", PList [])]))).
  - vm_compute. auto.
  - reflexivity.
  - reflexivity.
  - change (200 <= 200 < 300). lia.
  - reflexivity.
Defined.

(** C7 as stated fails: the body [{"data": []}] comes back as
    [{'data': []}], Python's rendering of the decoded dictionary. *)
Lemma flight_body_is_not_returned_verbatim :
  healthy_network (sample_flight_request None) = empty_data_reply
  /\ In (sample_flight_request None)
       (snd (run (sample_flight_search (Some "k") (Some "s") 0 0 None) healthy_network))
  /\ fst (run (sample_flight_search (Some "k") (Some "s") 0 0 None) healthy_network)
     = inl (PStr "{'data': []}")
  /\ fst (run (sample_flight_search (Some "k") (Some "s") 0 0 None) healthy_network)
     <> inl (PStr empty_data_body).
Proof.
  split; [reflexivity |]. split; [vm_compute; auto |].
  split; [vm_compute; reflexivity |]. vm_compute. discriminate.
Qed.

(** [view=""] and [price_range=""], three hotels found. *)
Lemma empty_view_and_price_range_are_sent_witness :
  let rq := sample_offers_request "EUR" "" "" "H1,H2,H3" in
  In rq (snd (run (sample_hotel_search (Some "k") (Some "s") 5 "EUR" "" "") healthy_network))
  /\ req_fields rq !! "view" = Some (PStr "FULL")
  /\ req_fields rq !! "priceRange" = Some (PStr "").
Proof.
  intros rq.
  assert (In rq (snd (run (sample_hotel_search (Some "k") (Some "s") 5 "EUR" "" "")
                        healthy_network))) as Hin.
  { vm_compute. auto. }
  split; [exact Hin |].
  destruct (empty_view_and_price_range_are_sent (Some "k") (Some "s")
              "PAR" "2026-01-10" "2026-01-12" 2 true 1000 5 "EUR" "" 1 ""
              healthy_network rq Hin eq_refl) as [Hview [Hprice _]].
  split; [exact (Hview eq_refl) | exact (Hprice eq_refl)].
Defined.

(** The provider knows no hotel in the city. *)
Lemma no_hotels_stops_before_offers_witness :
  run (sample_hotel_search (Some "k") (Some "s") 5 "EUR" "1-10000" "") network_without_hotels
  = (inl (PDict [("error", PStr ("No hotels found in " ++ "PAR"
                                 ++ ". Check city code or increase radius."));
                 ("step", PInt 1)]),
     [token_request (Some "k") (Some "s") true; list_request "PAR" true 1000 (PStr "tok")])
  /\ Forall (fun rq => req_url rq <> HOTEL_OFFERS_URL true)
       (snd (run (sample_hotel_search (Some "k") (Some "s") 5 "EUR" "1-10000" "")
               network_without_hotels)).
Proof.
  apply (no_hotels_stops_before_offers (Some "k") (Some "s")
           "PAR" "2026-01-10" "2026-01-12" 2 true 1000 5 "EUR" "1-10000" 1 ""
           network_without_hotels (PStr "tok")
           [token_request (Some "k") (Some "s") true]
           [token_request (Some "k") (Some "s") true;
            list_request "PAR" true 1000 (PStr "tok")]).
  - vm_compute. reflexivity.
  - vm_compute. reflexivity.
Defined.

(** Nothing can be reached: authentication fails and reports it.  The token
    endpoint answers [[1, 2]]: authentication fails with an [AttributeError]
    that reaches the caller. *)
Lemma chain_stops_at_failing_stage_witness :
  (tagged (PStr "auth")
     (fst (run (sample_hotel_search (Some "k") (Some "s") 5 "EUR" "1-10000" "")
             network_down))
   /\ map endpoint_of
        (snd (run (sample_hotel_search (Some "k") (Some "s") 5 "EUR" "1-10000" "")
                network_down))
      = [(POST, hotel_TOKEN_URL true)])
  /\ (map endpoint_of
        (snd (run (sample_hotel_search (Some "k") (Some "s") 5 "EUR" "1-10000" "")
                network_with_array_token))
      `prefix_of` [(POST, hotel_TOKEN_URL true)]
      /\ fst (run (sample_hotel_search (Some "k") (Some "s") 5 "EUR" "1-10000" "")
                network_with_array_token)
         = inr {| exn_cls := AttributeError;
                  exn_str := "'list' object has no attribute 'get'";
                  exn_response := None |}).
Proof.
  split.
  - destruct (chain_stops_at_failing_stage (Some "k") (Some "s")
                "PAR" "2026-01-10" "2026-01-12" 2 true 1000 5 "EUR" "1-10000" 1 ""
                network_down) as [_ [_ H]].
    apply (H Auth None).
    apply (auth_raises _ _ _ _ _ _ _ _ _ _ _ _ _ _
             {| exn_cls := RequestException; exn_str := "Connection refused";
                exn_response := None |}
             [token_request (Some "k") (Some "s") true]).
    vm_compute. reflexivity.
  - destruct (chain_stops_at_failing_stage (Some "k") (Some "s")
                "PAR" "2026-01-10" "2026-01-12" 2 true 1000 5 "EUR" "1-10000" 1 ""
                network_with_array_token) as [_ [_ H]].
    apply (H Auth (Some {| exn_cls := AttributeError;
                           exn_str := "'list' object has no attribute 'get'";
                           exn_response := None |})).
    apply (auth_raises _ _ _ _ _ _ _ _ _ _ _ _ _ _
             {| exn_cls := AttributeError;
                exn_str := "'list' object has no attribute 'get'";
                exn_response := None |}
             [token_request (Some "k") (Some "s") true]).
    vm_compute. reflexivity.
Defined.

(** Three hotels known, at most two wanted. *)
Lemma selected_hotels_ordered_and_bounded_witness :
  (exists hs, sublist hs hotels_entries /\ Forall2 has_hotel_id hs [PStr "H1"; PStr "H2"])
  /\ Z.of_nat (length [PStr "H1"; PStr "H2"]) <= 2.
Proof.
  destruct (selected_hotels_ordered_and_bounded "PAR" true 1000 2 healthy_network
              (PStr "tok") [] [list_request "PAR" true 1000 (PStr "tok")]
              (json_response 200 hotels_body (PDict [("data", PList hotels_entries)]))
              [("data", PList hotels_entries)] hotels_entries [PStr "H1"; PStr "H2"]
              eq_refl eq_refl eq_refl ltac:(vm_compute; reflexivity)) as [Horder Hbound].
  split; [exact Horder |]. apply Hbound. lia.
Defined.

(** The hotel-list endpoint answers 200 with an HTML page; or with
    [{"data": null}]. *)
Lemma hotel_list_parse_failure_is_tagged_witness :
  run (sample_hotel_search (Some "k") (Some "s") 5 "EUR" "1-10000" "")
    network_with_html_hotel_list
  = (inl (PDict [("error", PStr "Hotel List API error");
                 ("details", PStr "Expecting value: line 1 column 1 (char 0)");
                 ("step", PInt 1)]),
     [token_request (Some "k") (Some "s") true;
      list_request "PAR" true 1000 (PStr "tok")])
  /\ run (sample_hotel_search (Some "k") (Some "s") 5 "EUR" "1-10000" "")
       (network_with_hotels null_data_response)
     = (inl (PDict [("error",
                     PStr "Could not parse hotel IDs: 'NoneType' object is not iterable");
                    ("step", PInt 1)]),
        [token_request (Some "k") (Some "s") true;
         list_request "PAR" true 1000 (PStr "tok")]).
Proof.
  split.
  - apply (proj1 (hotel_list_parse_failure_is_tagged (Some "k") (Some "s")
                    "PAR" "2026-01-10" "2026-01-12" 2 true 1000 5 "EUR" "1-10000" 1 ""
                    network_with_html_hotel_list (PStr "tok")
                    [token_request (Some "k") (Some "s") true]
                    (undecodable_response 200 "<html>"
                       "Expecting value: line 1 column 1 (char 0)")
                    {| exn_cls := JSONDecodeError;
                       exn_str := "Expecting value: line 1 column 1 (char 0)";
                       exn_response := None |}
                    ltac:(vm_compute; reflexivity) eq_refl eq_refl
                    ltac:(vm_compute; reflexivity) eq_refl)).
  - apply (proj1 (hotel_list_parse_failure_is_tagged (Some "k") (Some "s")
                    "PAR" "2026-01-10" "2026-01-12" 2 true 1000 5 "EUR" "1-10000" 1 ""
                    (network_with_hotels null_data_response) (PStr "tok")
                    [token_request (Some "k") (Some "s") true]
                    null_data_response
                    {| exn_cls := TypeError;
                       exn_str := "'NoneType' object is not iterable";
                       exn_response := None |}
                    ltac:(vm_compute; reflexivity) eq_refl eq_refl
                    ltac:(vm_compute; reflexivity) eq_refl)).
Defined.

End Concrete_runs.

(** * More of the flight client *)

Ltac absurd_error_text :=
  match goal with
  | H : Py.contains "Error" _ = false |- _ => vm_compute in H; discriminate H
  end.

Ltac split_membership :=
  repeat match goal with
         | H : _ \/ _ |- _ => destruct H as [H | H]
         | H : False |- _ => destruct H
         end.

Section Flight_requests.

#[local] Set Warnings "-clear-no-such-hyp".

Context {U : Py.Unicode}.
Variables key secret : option string.
Variables (origin_location_code destination_location_code departure_date : string)
          (adults : Z) (non_stop : bool) (return_date : option string)
          (children infants : Z) (travel_class : option string) (max_results : Z).
Variable net : network.

Let params : gmap string pyval :=
  flight_params origin_location_code destination_location_code departure_date
    adults non_stop return_date children infants travel_class max_results.
Let search : py pyval :=
  search_amadeus_flights key secret origin_location_code destination_location_code
    departure_date adults non_stop return_date children infants travel_class
    max_results.
Let token_call : request := flight_token_request key secret.

(** X1: when the token call fails in transport or comes back with a 4xx or 5xx
    status, the flight search returns the text "Error fetching Amadeus
    token: ..." and makes no flight-offers call. *)
Theorem token_failure_ends_flight_search :
  Py.truthy_opt key && Py.truthy_opt secret = true ->
  (exists msg attached, net token_call = Failed msg attached)
  \/ (exists r, net token_call = Replied r /\ Requests.is_error_status r = true) ->
  exists detail,
    run search net
    = (inl (PStr ("Error fetching Amadeus token: " ++ detail)), [token_call]).
Proof.
  intros Hcred Hfail. apply andb_true_iff in Hcred as [Hk Hs].
  subst search params token_call.
  unfold search_amadeus_flights, _get_amadeus_token, flight_token_request in *.
  unfold_py. rewrite Hk, Hs. unfold_py.
  destruct Hfail as [[msg [attached Hnet]] | [r [Hnet Herr]]]; rewrite Hnet; unfold_py.
  - destruct (Py.contains _ _) eqn:E; [| absurd_error_text]. eauto.
  - rewrite Herr. unfold_py.
    destruct (Py.contains _ _) eqn:E; [| absurd_error_text]. eauto.
Qed.

(** X2: the detail of a failed flight-offers call.  An error status gives
    "Error from Amadeus API: " followed by the body of the response; so does an
    exception that carries a response; an exception without one gives "Error
    fetching flight offers: " followed by its text. *)
Theorem flight_error_prefers_response_body rq :
  In rq (snd (run search net)) -> req_method rq = GET ->
  (forall r, net rq = Replied r -> Requests.is_error_status r = true ->
             fst (run search net) = inl (PStr ("Error from Amadeus API: " ++ text r)))
  /\ (forall msg r, net rq = Failed msg (Some r) ->
                    fst (run search net) = inl (PStr ("Error from Amadeus API: " ++ text r)))
  /\ (forall msg, net rq = Failed msg None ->
                  fst (run search net)
                  = inl (PStr ("Error fetching flight offers: " ++ msg))).
Proof.
  subst search params.
  unfold search_amadeus_flights, _get_amadeus_token.
  py_cases; intros Hin Hget; split_membership; subst; try discriminate Hget;
    try absurd_error_text.
  all: cbn [exn_response exn_str] in *; repeat split; intros; congruence.
Qed.

(** X5: the test ["Error" in token] also fires on a genuine token: when the
    [access_token] of the response is a text that contains "Error", the search
    returns the token itself and makes no flight-offers call. *)
Theorem token_containing_error_is_returned r d t :
  Py.truthy_opt key && Py.truthy_opt secret = true ->
  net token_call = Replied r -> Requests.is_error_status r = false ->
  resp_json r = inr (PDict d) -> Py.assoc "access_token" d = Some (PStr t) ->
  Py.contains "Error" t = true ->
  run search net = (inl (PStr t), [token_call]).
Proof.
  intros Hcred Hnet Hok Hjson Hfield Hsub. apply andb_true_iff in Hcred as [Hk Hs].
  subst search params token_call.
  unfold search_amadeus_flights, _get_amadeus_token, flight_token_request in *.
  unfold_py. rewrite Hk, Hs. unfold_py. rewrite Hnet. unfold_py.
  rewrite Hok. unfold_py. rewrite Hjson. unfold_py. rewrite Hfield. unfold_py.
  rewrite Hsub. reflexivity.
Qed.

(** X6: any other text token, the empty one included, is presented as
    [Authorization: Bearer <token>] in the one flight-offers call that follows
    the token call. *)
Theorem flight_call_presents_the_token r d t :
  Py.truthy_opt key && Py.truthy_opt secret = true ->
  net token_call = Replied r -> Requests.is_error_status r = false ->
  resp_json r = inr (PDict d) -> Py.assoc "access_token" d = Some (PStr t) ->
  Py.contains "Error" t = false ->
  snd (run search net)
  = [token_call;
     {| req_method := GET; req_url := FLIGHT_OFFERS_URL;
        req_headers := {["Authorization" := "Bearer " ++ t]};
        req_fields := params; req_timeout := None |}].
Proof.
  intros Hcred Hnet Hok Hjson Hfield Hsub. apply andb_true_iff in Hcred as [Hk Hs].
  subst search params token_call.
  unfold search_amadeus_flights, _get_amadeus_token, flight_token_request in *.
  unfold_py. rewrite Hk, Hs. unfold_py. rewrite Hnet. unfold_py.
  rewrite Hok. unfold_py. rewrite Hjson. unfold_py. rewrite Hfield. unfold_py.
  rewrite Hsub. unfold_py. cbn [Py.str].
  py_cases; reflexivity.
Qed.


(** X8: a flight search calls at most twice, the token endpoint and then the
    flight-offers endpoint of the test host, and sets no timeout; without
    credentials it calls nothing. *)
Theorem flight_search_calls :
  prefix (map endpoint_of (snd (run search net)))
    [(POST, "https://test.api.amadeus.com/v1/security/oauth2/token");
     (GET, "https://test.api.amadeus.com/v2/shopping/flight-offers")]
  /\ Forall (fun rq => req_timeout rq = None) (snd (run search net))
  /\ (Py.truthy_opt key && Py.truthy_opt secret = false -> snd (run search net) = []).
Proof.
  split; [| split].
  - destruct (flight_calls key secret origin_location_code destination_location_code
                departure_date adults non_stop return_date children infants
                travel_class max_results net) as [H | [H | [token H]]];
      fold search in H; rewrite H.
    + eexists. reflexivity.
    + exists [(GET, "https://test.api.amadeus.com/v2/shopping/flight-offers")]. reflexivity.
    + exists []. reflexivity.
  - destruct (flight_calls key secret origin_location_code destination_location_code
                departure_date adults non_stop return_date children infants
                travel_class max_results net) as [H | [H | [token H]]];
      fold search in H; rewrite H; repeat constructor.
  - intros Hcred. subst search. unfold search_amadeus_flights.
    cbv beta iota delta [run call bind].
    rewrite (token_without_credentials key secret net [] Hcred).
    cbv beta iota delta [py_in pure return_].
    match goal with
    | |- context [Py.contains ?a ?b] => change (Py.contains a b) with true
    end.
    reflexivity.
Qed.

(** X3: the flight-offers request always carries the six required
    parameters, with the arguments as values and [non_stop] as the text [true]
    or [false]; it carries no parameter besides these and [returnDate],
    [children], [infants] and [travelClass]. *)
Theorem flight_required_parameters rq :
  In rq (snd (run search net)) -> req_method rq = GET ->
  req_fields rq !! "originLocationCode" = Some (PStr origin_location_code)
  /\ req_fields rq !! "destinationLocationCode" = Some (PStr destination_location_code)
  /\ req_fields rq !! "departureDate" = Some (PStr departure_date)
  /\ req_fields rq !! "adults" = Some (PInt adults)
  /\ req_fields rq !! "nonStop" = Some (PStr (if non_stop then "true" else "false"))
  /\ req_fields rq !! "max" = Some (PInt max_results)
  /\ dom (req_fields rq)
     ⊆ ({["originLocationCode"; "destinationLocationCode"; "departureDate"; "adults";
          "nonStop"; "max"; "returnDate"; "children"; "infants"; "travelClass"]}
        : gset string).
Proof.
  intros Hin Hget.
  rewrite (flight_get_request key secret origin_location_code destination_location_code
             departure_date adults non_stop return_date children infants travel_class
             max_results net rq Hin Hget).
  unfold flight_params.
  assert (Py.lower (Py.str (PBool non_stop)) = if non_stop then "true" else "false") as ->.
  { destruct non_stop; cbn [Py.str Py.repr];
      rewrite Py.lower_ascii by reflexivity; reflexivity. }
  destruct (Py.truthy_opt return_date), (Z.ltb 0 children), (Z.ltb 0 infants),
    travel_class as [tc|]; try destruct (Py.truthy_opt (Some tc));
    try destruct (existsb _ _).
  all: repeat split; map_lookup; try reflexivity.
  all: rewrite ?dom_insert_L, dom_singleton_L; set_solver.
Qed.

(** X4: [returnDate] is sent exactly when a non-empty [return_date] is given,
    with that text as value. *)
Theorem return_date_sent_iff_given rq :
  In rq (snd (run search net)) -> req_method rq = GET ->
  forall v,
    req_fields rq !! "returnDate" = Some v
    <-> exists date, return_date = Some date /\ date <> "" /\ v = PStr date.
Proof.
  intros Hin Hget v.
  rewrite (flight_get_request key secret origin_location_code destination_location_code
             departure_date adults non_stop return_date children infants travel_class
             max_results net rq Hin Hget).
  unfold flight_params.
  assert (forall m : gmap string pyval,
            (match travel_class with
             | Some tc =>
                 if Py.truthy_opt travel_class then
                   if existsb (String.eqb (Py.upper tc))
                        ["ECONOMY"; "PREMIUM_ECONOMY"; "BUSINESS"; "FIRST"]
                   then <["travelClass" := PStr (Py.upper tc)]> m else m
                 else m
             | None => m
             end) !! "returnDate" = m !! "returnDate") as Htc.
  { intros m. destruct travel_class as [tc|]; [| reflexivity].
    destruct (Py.truthy_opt (Some tc)); [destruct (existsb _ _) |];
      map_lookup; reflexivity. }
  rewrite Htc.
  destruct return_date as [[|c date]|]; cbn [Py.truthy_opt String.eqb negb Py.of_opt].
  - destruct (Z.ltb 0 children), (Z.ltb 0 infants); map_lookup.
    all: split; [discriminate | intros [date [[= <-] [Hne _]]]; now destruct Hne].
  - destruct (Z.ltb 0 children), (Z.ltb 0 infants); map_lookup.
    all: split; [intros [= <-]; eexists; repeat split; discriminate
                | intros [date' [[= <-] [_ ->]]]; reflexivity].
  - destruct (Z.ltb 0 children), (Z.ltb 0 infants); map_lookup.
    all: split; [discriminate | intros [date [[=] _]]].
Qed.

End Flight_requests.

(** * More of the hotel client *)

(** The identifiers collected are truthy. *)
Lemma collect_hotel_ids_truthy l net log ids log' :
  collect_hotel_ids l net log = (Normal ids, log') ->
  Forall (fun id => Py.truthy id = true) ids.
Proof.
  revert ids. induction l as [|h l IH]; intros ids; cbn [collect_hotel_ids].
  - unfold_py. intros [= <- _]. constructor.
  - destruct h; unfold_py; try discriminate.
    destruct (Py.truthy _) eqn:Ht; unfold_py.
    + destruct (collect_hotel_ids l net log) as [[ids0|v|e] log0]; unfold_py;
        try discriminate.
      intros [= <- <-]. constructor; [exact Ht | now apply IH].
    + destruct (collect_hotel_ids l net log) as [[ids0|v|e] log0];
        try discriminate.
      intros [= <- <-]. now apply IH.
Qed.

(** No entry with a truthy identifier is skipped. *)
Lemma collect_hotel_ids_complete l net log ids log' :
  collect_hotel_ids l net log = (Normal ids, log') ->
  forall d id,
    In (PDict d) l -> Py.assoc "hotelId" d = Some id -> Py.truthy id = true ->
    In id ids.
Proof.
  revert ids. induction l as [|h l IH]; intros ids; cbn [collect_hotel_ids].
  - intros _ d id [].
  - destruct h; unfold_py; try discriminate.
    destruct (Py.truthy _) eqn:Ht; unfold_py.
    + destruct (collect_hotel_ids l net log) as [[ids0|v|e] log0]; unfold_py;
        try discriminate.
      intros [= <- <-] d' id [[= <-] | Hin] Hid Hid'.
      * rewrite Hid. left. reflexivity.
      * right. exact (IH ids0 eq_refl d' id Hin Hid Hid').
    + destruct (collect_hotel_ids l net log) as [[ids0|v|e] log0];
        try discriminate.
      intros [= <- <-] d' id [[= <-] | Hin] Hid Hid'.
      * rewrite Hid in Ht. congruence.
      * exact (IH ids0 eq_refl d' id Hin Hid Hid').
Qed.

Lemma collect_hotel_ids_length l net log ids log' :
  collect_hotel_ids l net log = (Normal ids, log') ->
  (length ids <= length l)%nat.
Proof.
  intros H. pose proof (collect_hotel_ids_spec l net log) as Hs. rewrite H in Hs.
  destruct Hs as [_ [hs [Hsub Hall]]].
  apply Forall2_length in Hall. apply sublist_length in Hsub. lia.
Qed.

(** A slice at or beyond the end keeps everything; a slice at zero keeps
    nothing. *)
Lemma slice_to_all {X : Type} (n : Z) (l : list X) :
  Z.of_nat (length l) <= n -> Py.slice_to n l = l.
Proof.
  intros H. unfold Py.slice_to.
  destruct (Z.leb_spec 0 n); [| lia].
  apply firstn_all2. lia.
Qed.

(** What [",".join] gives and when it raises. *)
Lemma py_join_items_normal l : forall i net log items log',
  py_join_items i l net log = (Normal items, log') -> l = map PStr items.
Proof.
  induction l as [|v l IH]; intros i net log items log'; cbn [py_join_items].
  - unfold_py. intros [= <- _]. reflexivity.
  - destruct v; unfold_py; try discriminate.
    destruct (py_join_items (i + 1) l net log) as [[items0|v|e] log0] eqn:E;
      try discriminate.
    intros [= <- _]. cbn [map]. f_equal. exact (IH _ _ _ _ _ E).
Qed.

Lemma py_join_normal sep l net log joined log' :
  py_join sep l net log = (Normal joined, log') ->
  exists names, l = map PStr names /\ joined = Py.join sep names.
Proof.
  unfold py_join. unfold_py.
  destruct (py_join_items 0 l net log) as [[items|v|e] log0] eqn:E; try discriminate.
  intros [= <- _]. exists items. split; [exact (py_join_items_normal _ _ _ _ _ _ E) | reflexivity].
Qed.

Lemma py_join_items_raises l : forall i net log,
  (exists id, In id l /\ forall s, id <> PStr s) ->
  exists e, py_join_items i l net log = (Raise e, log) /\ exn_cls e = TypeError.
Proof.
  induction l as [|v l IH]; intros i net log [id [Hin Hns]]; [destruct Hin |].
  cbn [py_join_items].
  destruct v; unfold_py; try (eexists; split; reflexivity).
  destruct Hin as [<- | Hin]; [now destruct (Hns s) |].
  destruct (IH (i + 1) net log (ex_intro _ id (conj Hin Hns))) as [e [-> Hcls]].
  eauto.
Qed.

(** An entry that is not a dictionary stops the comprehension. *)
Lemma collect_hotel_ids_raises l net log :
  (exists h, In h l /\ is_dict h = false) ->
  exists e, collect_hotel_ids l net log = (Raise e, log) /\ exn_cls e = AttributeError.
Proof.
  induction l as [|h l IH]; intros [h' [Hin Hnd]]; [destruct Hin |].
  cbn [collect_hotel_ids].
  destruct h; unfold_py; try (eexists; split; reflexivity).
  destruct Hin as [<- | Hin]; [discriminate Hnd |].
  destruct (IH (ex_intro _ h' (conj Hin Hnd))) as [e [He Hcls]].
  destruct (Py.truthy _); unfold_py; rewrite He; eauto.
Qed.

Section Hotel_chain.

#[local] Set Warnings "-clear-no-such-hyp".

Context {U : Py.Unicode}.
Variables key secret : option string.
Variables (city_code check_in_date check_out_date : string) (adults : Z)
          (use_test_env : bool) (radius_km max_hotels : Z)
          (currency price_range : string) (room_quantity : Z) (view : string).
Variable net : network.

#[local] Abbreviation auth := (hotel_auth key secret use_test_env).
#[local] Abbreviation listing := (hotel_list city_code use_test_env radius_km max_hotels).
#[local] Abbreviation search :=
  (search_amadeus_hotels key secret city_code check_in_date check_out_date adults
     use_test_env radius_km max_hotels currency price_range room_quantity view).
#[local] Abbreviation A := (token_request key secret use_test_env).
#[local] Abbreviation L := (list_request city_code use_test_env radius_km).
#[local] Abbreviation O :=
  (offers_request check_in_date check_out_date adults use_test_env currency price_range
     room_quantity view).
#[local] Abbreviation run_cases :=
  (hotel_run_cases key secret city_code check_in_date check_out_date adults use_test_env
     radius_km max_hotels currency price_range room_quantity view net).

(** Taking the chain apart along a completed AUTH block. *)
Ltac after_auth Ha H :=
  let Ha' := fresh "Ha'" in
  destruct run_cases as [[? [Ha' _]] | [[? [Ha' _]] | [? [Ha' H]]]];
  rewrite Ha in Ha'; try discriminate Ha';
  injection Ha' as <- ->.

(** Where the token of a completed AUTH block comes from. *)
Lemma hotel_auth_normal log tok log' :
  auth net log = (Normal tok, log') ->
  exists r d,
    net A = Replied r /\ Requests.is_error_status r = false
    /\ resp_json r = inr (PDict d) /\ Py.assoc "access_token" d = Some tok
    /\ Py.truthy tok = true.
Proof.
  unfold hotel_auth, auth_attempt, token_request.
  py_cases; intros H; try discriminate H; injection H as <- _.
  - eexists _, _. repeat split; eauto. now apply negb_false_iff.
  - cbn in *. discriminate.
Qed.

(** Where the identifiers of a completed STEP 1 block come from. *)
Lemma hotel_list_normal tok log ids log' :
  listing tok net log = (Normal ids, log') ->
  exists r d elements all_ids,
    net (L tok) = Replied r /\ Requests.is_error_status r = false
    /\ resp_json r = inr (PDict d)
    /\ py_iter (match Py.assoc "data" d with Some v => v | None => PList [] end)
         net (log ++ [L tok])%list
       = (Normal elements, (log ++ [L tok])%list)
    /\ collect_hotel_ids elements net (log ++ [L tok])%list
       = (Normal all_ids, (log ++ [L tok])%list)
    /\ ids = Py.slice_to max_hotels all_ids.
Proof.
  unfold hotel_list, try_except, list_attempt, list_request, hotel_ids_of.
  unfold_py.
  destruct (net _) as [msg att|r] eqn:Hnet; unfold_py; [discriminate |].
  destruct (Requests.is_error_status r) eqn:Hok; unfold_py; [discriminate |].
  destruct (resp_json r) as [[[] msg]|[]] eqn:Hjson; unfold_py; try discriminate.
  destruct (match Py.assoc "data" d with Some v => v | None => PList [] end)
    as [| | | | |l|kv] eqn:Hdata; unfold_py; try discriminate.
  - (* a text: its characters *)
    match goal with
    | |- context [collect_hotel_ids ?x ?n ?g] =>
        pose proof (collect_hotel_ids_spec x n g) as Hs;
        destruct (collect_hotel_ids x n g) as [[ids0|v|e] log0] eqn:Hc
    end; unfold_py; [| contradiction |].
    + destruct Hs as [-> _]. intros [= <- _].
      eexists r, d, _, ids0. rewrite Hdata.
      repeat split; first [eassumption | reflexivity].
    + destruct Hs as [_ Hcls]. unfold isinstance. rewrite Hcls. cbn. discriminate.
  - match goal with
    | |- context [collect_hotel_ids ?x ?n ?g] =>
        pose proof (collect_hotel_ids_spec x n g) as Hs;
        destruct (collect_hotel_ids x n g) as [[ids0|v|e] log0] eqn:Hc
    end; unfold_py; [| contradiction |].
    + destruct Hs as [-> _]. intros [= <- _].
      eexists r, d, _, ids0. rewrite Hdata.
      repeat split; first [eassumption | reflexivity].
    + destruct Hs as [_ Hcls]. unfold isinstance. rewrite Hcls. cbn. discriminate.
  - match goal with
    | |- context [collect_hotel_ids ?x ?n ?g] =>
        pose proof (collect_hotel_ids_spec x n g) as Hs;
        destruct (collect_hotel_ids x n g) as [[ids0|v|e] log0] eqn:Hc
    end; unfold_py; [| contradiction |].
    + destruct Hs as [-> _]. intros [= <- _].
      eexists r, d, _, ids0. rewrite Hdata.
      repeat split; first [eassumption | reflexivity].
    + destruct Hs as [_ Hcls]. unfold isinstance. rewrite Hcls. cbn. discriminate.
Qed.

(** X9: when the three stages succeed the search returns the decoded offers
    document as it is, after exactly the three calls. *)
Theorem hotel_success_returns_payload tok log1 ids log2 joined r v :
  auth net [] = (Normal tok, log1) ->
  listing tok net log1 = (Normal ids, log2) -> ids <> [] ->
  py_join "," ids net log2 = (Normal joined, log2) ->
  net (O tok joined) = Replied r -> Requests.is_error_status r = false ->
  resp_json r = inr v ->
  run search net = (inl v, [A; L tok; O tok joined]).
Proof.
  intros Ha Hl Hne Hj Hnet Hok Hjson.
  after_auth Ha H.
  destruct H as [[d [Hl' _]] | [[e [Hl' _]] | [[Hl' _] | [ids' [_ [Hl' H]]]]]];
    rewrite Hl in Hl'; try discriminate Hl'.
  { injection Hl' as -> _. destruct (Hne eq_refl). }
  injection Hl' as <- ->.
  assert (hotel_offers check_in_date check_out_date adults use_test_env currency
            price_range room_quantity view tok ids net [A; L tok]
          = (Return v, [A; L tok; O tok joined])) as Hoffers.
  { unfold hotel_offers. cbv beta iota delta [bind]. rewrite Hj.
    unfold try_except, offers_attempt. unfold offers_request in Hnet |- *.
    unfold_py. rewrite Hnet. unfold_py. rewrite Hok. unfold_py. rewrite Hjson.
    reflexivity. }
  destruct H as [[e [Hj' _]] | [joined' [Hj' [[v' [Ho Hrun]] | [e [Ho _]]]]]];
    rewrite Hj in Hj'; try discriminate Hj'; injection Hj' as <-;
    rewrite Hoffers in Ho; try discriminate Ho.
  injection Ho as <-. exact Hrun.
Qed.


(** X11: a selected identifier that is not a text (a number, say) makes the
    search raise [TypeError] at [",".join], after the list call and before any
    offers call. *)
Theorem non_text_hotel_id_raises tok log1 ids log2 :
  auth net [] = (Normal tok, log1) ->
  listing tok net log1 = (Normal ids, log2) ->
  (exists id, In id ids /\ forall s, id <> PStr s) ->
  exists e, exn_cls e = TypeError /\ run search net = (inr e, [A; L tok]).
Proof.
  intros Ha Hl Hbad.
  after_auth Ha H.
  destruct H as [[d [Hl' _]] | [[e [Hl' _]] | [[Hl' _] | [ids' [_ [Hl' H]]]]]];
    rewrite Hl in Hl'; try discriminate Hl'.
  { injection Hl' as -> _. destruct Hbad as [id [[] _]]. }
  injection Hl' as <- ->.
  assert (exists e, py_join "," ids net [A; L tok] = (Raise e, [A; L tok])
                    /\ exn_cls e = TypeError) as [e [Hj Hcls]].
  { unfold py_join. cbv beta iota delta [bind].
    destruct (py_join_items_raises ids 0 net [A; L tok] Hbad) as [e [-> Hcls]]. eauto. }
  destruct H as [[e' [Hj' ->]] | [joined [Hj' _]]]; rewrite Hj in Hj';
    try discriminate Hj'.
  injection Hj' as <-. eauto.
Qed.

(** X12: with [max_hotels=0] the slice is empty, so a search whose
    authentication and list stages succeed always ends with "No hotels found",
    whatever the provider listed. *)
Theorem zero_max_hotels_finds_nothing tok log1 ids log2 :
  max_hotels = 0 ->
  auth net [] = (Normal tok, log1) ->
  listing tok net log1 = (Normal ids, log2) ->
  run search net = (inl (no_hotels_found city_code), [A; L tok]).
Proof.
  intros Hz Ha Hl.
  destruct (hotel_list_normal tok log1 ids log2 Hl)
    as [r [d [elements [all_ids [_ [_ [_ [_ [_ Hids]]]]]]]]].
  rewrite Hz in Hids. unfold Py.slice_to in Hids. cbn in Hids. subst ids.
  after_auth Ha H.
  destruct H as [[d' [Hl' _]] | [[e [Hl' _]] | [[_ Hrun] | [ids' [Hne [Hl' _]]]]]];
    try (rewrite Hl in Hl'; discriminate Hl').
  - exact Hrun.
  - rewrite Hl in Hl'. injection Hl' as <- _. destruct (Hne eq_refl).
Qed.

(** X13: a list response that is a JSON object without [data] counts as an
    empty list: the search ends with "No hotels found". *)
Theorem missing_data_is_no_hotels tok log1 r d :
  auth net [] = (Normal tok, log1) ->
  net (L tok) = Replied r -> Requests.is_error_status r = false ->
  resp_json r = inr (PDict d) -> Py.assoc "data" d = None ->
  run search net = (inl (no_hotels_found city_code), [A; L tok]).
Proof.
  intros Ha Hnet Hok Hjson Hdata.
  after_auth Ha H.
  assert (listing tok net [A] = (Normal [], [A; L tok])) as Hl.
  { unfold hotel_list, try_except, list_attempt, hotel_ids_of.
    unfold list_request in Hnet.
    unfold_py. rewrite Hnet. unfold_py. rewrite Hok. unfold_py. rewrite Hjson. unfold_py.
    rewrite Hdata. unfold_py. cbn [collect_hotel_ids]. unfold_py.
    unfold Py.slice_to.
    destruct (Z.leb 0 max_hotels); [destruct (Z.to_nat max_hotels) |]; reflexivity. }
  destruct H as [[d' [Hl' _]] | [[e [Hl' _]] | [[_ Hrun] | [ids' [Hne [Hl' _]]]]]];
    try (rewrite Hl in Hl'; discriminate Hl').
  - exact Hrun.
  - rewrite Hl in Hl'. injection Hl' as <-. destruct (Hne eq_refl).
Qed.

(** X14: every call of a hotel search has the 20-second timeout and goes to
    the host that [use_test_env] selects: the test host, or else the production
    host. *)
Theorem hotel_calls_timeout_and_host :
  Forall (fun rq =>
            req_timeout rq = Some 20
            /\ String.prefix (if use_test_env then "https://test.api.amadeus.com/"
                              else "https://api.amadeus.com/") (req_url rq) = true)
    (snd (run search net)).
Proof.
  destruct (hotel_calls key secret city_code check_in_date check_out_date adults
              use_test_env radius_km max_hotels currency price_range room_quantity
              view net) as [H | [[tok H] | [tok [joined H]]]]; rewrite H.
  all: repeat constructor; destruct use_test_env; reflexivity.
Qed.

(** X15: the token presented by the list and offers calls is the
    [access_token] of the token response, as [Authorization: Bearer <token>]. *)
Theorem hotel_calls_present_the_token tok log1 :
  auth net [] = (Normal tok, log1) ->
  (exists r d, net A = Replied r /\ resp_json r = inr (PDict d)
               /\ Py.assoc "access_token" d = Some tok)
  /\ forall rq, In rq (snd (run search net)) -> req_method rq = GET ->
                req_headers rq = {["Authorization" := "Bearer " ++ Py.str tok]}.
Proof.
  intros Ha. split.
  { destruct (hotel_auth_normal [] tok log1 Ha) as [r [d [H1 [_ [H2 [H3 _]]]]]]. eauto. }
  intros rq Hin Hget.
  after_auth Ha H.
  assert (snd (run search net) = [A; L tok]
          \/ exists joined, snd (run search net) = [A; L tok; O tok joined]) as Hlog.
  { destruct H as [[d [_ ->]] | [[e [_ ->]] | [[_ ->] | [ids [_ [_ H]]]]]]; auto.
    destruct H as [[e [_ ->]] | [joined [_ [[v [_ ->]] | [e [_ [_ ->]]]]]]]; eauto. }
  destruct Hlog as [Hlog | [joined Hlog]]; rewrite Hlog in Hin; cbn [In] in Hin;
    split_membership; subst rq; try discriminate Hget; reflexivity.
Qed.

Lemma offer_params_fixed joined :
  let p := offer_params check_in_date check_out_date adults currency price_range
             room_quantity view joined in
  p !! "hotelIds" = Some (PStr joined)
  /\ p !! "checkInDate" = Some (PStr check_in_date)
  /\ p !! "checkOutDate" = Some (PStr check_out_date)
  /\ p !! "adults" = Some (PInt adults)
  /\ p !! "roomQuantity" = Some (PInt room_quantity)
  /\ p !! "includeClosed" = Some (PStr "true")
  /\ p !! "bestRateOnly" = Some (PStr "false").
Proof.
  unfold offer_params. cbn [Py.truthy].
  destruct (String.eqb view ""), (String.eqb price_range ""), (String.eqb currency "");
    cbn [negb]; repeat split; map_lookup; reflexivity.
Qed.

(** X16: the offers request asks for the selected identifiers, joined by
    commas in their order, for the dates, the adults and the room quantity of
    the call, always with [includeClosed=true] and [bestRateOnly=false]. *)
Theorem offers_request_parameters tok log1 ids log2 rq :
  auth net [] = (Normal tok, log1) ->
  listing tok net log1 = (Normal ids, log2) ->
  In rq (snd (run search net)) -> req_url rq = HOTEL_OFFERS_URL use_test_env ->
  (exists names, ids = map PStr names
                 /\ req_fields rq !! "hotelIds" = Some (PStr (Py.join "," names)))
  /\ req_fields rq !! "checkInDate" = Some (PStr check_in_date)
  /\ req_fields rq !! "checkOutDate" = Some (PStr check_out_date)
  /\ req_fields rq !! "adults" = Some (PInt adults)
  /\ req_fields rq !! "roomQuantity" = Some (PInt room_quantity)
  /\ req_fields rq !! "includeClosed" = Some (PStr "true")
  /\ req_fields rq !! "bestRateOnly" = Some (PStr "false").
Proof.
  intros Ha Hl Hin Hurl.
  assert (HOTEL_OFFERS_URL use_test_env <> hotel_TOKEN_URL use_test_env) as Hnt
    by (destruct use_test_env; vm_compute; discriminate).
  assert (HOTEL_OFFERS_URL use_test_env <> HOTEL_LIST_URL use_test_env) as Hnl
    by (destruct use_test_env; vm_compute; discriminate).
  after_auth Ha H.
  destruct H as [[d [_ Hrun]] | [[e [_ Hrun]] | [[_ Hrun] | [ids' [_ [Hl' H]]]]]].
  1-3: rewrite Hrun in Hin; cbn [snd In] in Hin; split_membership; subst rq;
    cbn [req_url token_request list_request] in Hurl; congruence.
  rewrite Hl in Hl'. injection Hl' as <- ->.
  destruct H as [[e [_ Hrun]] | [joined [Hj H]]].
  { rewrite Hrun in Hin; cbn [snd In] in Hin; split_membership; subst rq;
      cbn [req_url token_request list_request] in Hurl; congruence. }
  assert (snd (run search net) = [A; L tok; O tok joined]) as Hlog.
  { destruct H as [[v [_ ->]] | [e [_ [_ ->]]]]; reflexivity. }
  clear H. assert (exists res, run search net = (res, [A; L tok; O tok joined]))
    as [res Hrun].
  { exists (fst (run search net)). rewrite <- Hlog. apply surjective_pairing. }
  rewrite Hrun in Hin; cbn [snd In] in Hin; split_membership; subst rq;
    cbn [req_url token_request list_request] in Hurl; try congruence.
  destruct (py_join_normal "," ids net _ joined _ Hj) as [names [Hids Hjoined]].
  pose proof (offer_params_fixed joined) as Hp. cbv zeta in Hp.
  cbn [req_fields offers_request].
  destruct Hp as [H1 Hrest]. split; [| exact Hrest].
  exists names. split; [exact Hids |]. rewrite H1, Hjoined. reflexivity.
Qed.

(** X17: the details of a failed authentication.  A 4xx or 5xx token
    response is reported by the text of the [HTTPError], not by the body of
    the response (an error response is falsy); a transport failure is reported
    by its text, or by the body of the response it carries when that response
    is not an error. *)
Theorem auth_failure_details :
  (forall r, net A = Replied r -> Requests.is_error_status r = true ->
     run search net
     = (inl (PDict [("error", PStr "Amadeus authentication failed");
                    ("details",
                     PStr (pretty (status_code r)
                           ++ (if Z.ltb (status_code r) 500 then " Client Error: "
                               else " Server Error: ")
                           ++ reason r ++ " for url: " ++ resp_url r));
                    ("step", PStr "auth")]),
        [A]))
  /\ (forall msg attached, net A = Failed msg attached ->
        run search net
        = (inl (PDict [("error", PStr "Amadeus authentication failed");
                       ("details",
                        PStr (match attached with
                              | Some r => if Requests.ok r then text r else msg
                              | None => msg
                              end));
                       ("step", PStr "auth")]),
           [A])).
Proof.
  split.
  - intros r Hnet Herr.
    assert (auth net []
            = (Return (auth_error "Amadeus authentication failed"
                         (pretty (status_code r)
                          ++ (if Z.ltb (status_code r) 500 then " Client Error: "
                              else " Server Error: ")
                          ++ reason r ++ " for url: " ++ resp_url r)), [A])) as Ha.
    { unfold hotel_auth, try_except, auth_attempt. unfold token_request in Hnet.
      unfold_py. rewrite Hnet. unfold_py. rewrite Herr. unfold_py.
      unfold error_details. cbn [exn_response exn_str]. unfold Requests.ok.
      rewrite Herr. reflexivity. }
    destruct run_cases as [[d [Ha' ->]] | [[e [Ha' _]] | [tok [Ha' _]]]];
      rewrite Ha in Ha'; try discriminate Ha'.
    injection Ha' as <-. reflexivity.
  - intros msg attached Hnet.
    assert (auth net []
            = (Return (auth_error "Amadeus authentication failed"
                         (match attached with
                          | Some r => if Requests.ok r then text r else msg
                          | None => msg
                          end)), [A])) as Ha.
    { unfold hotel_auth, try_except, auth_attempt. unfold token_request in Hnet.
      unfold_py. rewrite Hnet. unfold_py. reflexivity. }
    destruct run_cases as [[d [Ha' ->]] | [[e [Ha' _]] | [tok [Ha' _]]]];
      rewrite Ha in Ha'; try discriminate Ha'.
    injection Ha' as <-. reflexivity.
Qed.

(** X18: a 2xx token response that is a JSON object whose [access_token] is
    missing or falsy (empty, [null]) ends the hotel search with "No
    access_token in token response", the body of the response as details, and
    no further call. *)
Theorem missing_token_reports_the_body r d :
  net A = Replied r -> Requests.is_error_status r = false ->
  resp_json r = inr (PDict d) ->
  Py.truthy (match Py.assoc "access_token" d with Some t => t | None => PNone end)
  = false ->
  run search net
  = (inl (PDict [("error", PStr "No access_token in token response");
                 ("details", PStr (text r)); ("step", PStr "auth")]),
     [A]).
Proof.
  intros Hnet Hok Hjson Hfalsy.
  assert (auth net []
          = (Return (auth_error "No access_token in token response" (text r)), [A]))
    as Ha.
  { unfold hotel_auth, try_except, auth_attempt. unfold token_request in Hnet.
    unfold_py. rewrite Hnet. unfold_py. rewrite Hok. unfold_py. rewrite Hjson. unfold_py.
    rewrite Hfalsy. reflexivity. }
  destruct run_cases as [[d' [Ha' ->]] | [[e [Ha' _]] | [tok [Ha' _]]]];
    rewrite Ha in Ha'; try discriminate Ha'.
  injection Ha' as <-. reflexivity.
Qed.

(** X19: every selected identifier is truthy, and when [max_hotels] is at
    least the length of the provider's list, no entry with a truthy [hotelId]
    is left out. *)
Theorem selected_hotels_truthy_and_complete tok log ids log' :
  listing tok net log = (Normal ids, log') ->
  Forall (fun id => Py.truthy id = true) ids
  /\ forall r d l,
       net (L tok) = Replied r -> resp_json r = inr (PDict d) ->
       Py.assoc "data" d = Some (PList l) ->
       Z.of_nat (length l) <= max_hotels ->
       forall entry id,
         In (PDict entry) l -> Py.assoc "hotelId" entry = Some id ->
         Py.truthy id = true -> In id ids.
Proof.
  intros Hl.
  destruct (hotel_list_normal tok log ids log' Hl)
    as [r [d [elements [all_ids [Hnet [_ [Hjson [Hiter [Hc ->]]]]]]]]].
  split.
  - destruct (slice_to_take max_hotels all_ids) as [k ->].
    apply Forall_take. exact (collect_hotel_ids_truthy _ _ _ _ _ Hc).
  - intros r' d' l Hnet' Hjson' Hdata Hlen entry id Hin Hid Ht.
    rewrite Hnet in Hnet'. injection Hnet' as <-.
    rewrite Hjson in Hjson'. injection Hjson' as <-.
    rewrite Hdata in Hiter. revert Hiter. unfold_py. intros [= <-].
    rewrite slice_to_all.
    + exact (collect_hotel_ids_complete _ _ _ _ _ Hc entry id Hin Hid Ht).
    + pose proof (collect_hotel_ids_length _ _ _ _ _ Hc). lia.
Qed.

(** X20: an entry of [data] that is not a JSON object makes the search raise
    [AttributeError], which no clause of STEP 1 names: the caller gets an
    exception, not an error dictionary. *)
Theorem non_object_entry_raises tok log1 r d l :
  auth net [] = (Normal tok, log1) ->
  net (L tok) = Replied r -> Requests.is_error_status r = false ->
  resp_json r = inr (PDict d) -> Py.assoc "data" d = Some (PList l) ->
  (exists h, In h l /\ is_dict h = false) ->
  exists e, exn_cls e = AttributeError /\ run search net = (inr e, [A; L tok]).
Proof.
  intros Ha Hnet Hok Hjson Hdata Hbad.
  after_auth Ha H.
  destruct (collect_hotel_ids_raises l net [A; L tok] Hbad) as [e [Hc Hcls]].
  assert (listing tok net [A] = (Raise e, [A; L tok])) as Hl.
  { unfold hotel_list, try_except, list_attempt, hotel_ids_of.
    unfold list_request in Hnet, Hc.
    unfold_py. rewrite Hnet. unfold_py. rewrite Hok. unfold_py. rewrite Hjson. unfold_py.
    rewrite Hdata. unfold_py. rewrite Hc. unfold_py.
    unfold isinstance. rewrite Hcls. reflexivity. }
  destruct H as [[d' [Hl' _]] | [[e' [Hl' Hrun]] | [[Hl' _] | [ids' [_ [Hl' _]]]]]];
    rewrite Hl in Hl'; try discriminate Hl'.
  injection Hl' as <-. eauto.
Qed.

(** X21: a [data] that cannot be iterated ([null], a number, a boolean) is
    reported by the second clause of STEP 1: an error dictionary with
    "Could not parse hotel IDs: ..." and [step] 1, and no offers call. *)
Theorem non_iterable_data_is_parse_error tok log1 r d data :
  auth net [] = (Normal tok, log1) ->
  net (L tok) = Replied r -> Requests.is_error_status r = false ->
  resp_json r = inr (PDict d) -> Py.assoc "data" d = Some data ->
  match data with PStr _ | PList _ | PDict _ => False | _ => True end ->
  run search net
  = (inl (PDict [("error",
                  PStr ("Could not parse hotel IDs: '" ++ Py.type_name data
                        ++ "' object is not iterable"));
                 ("step", PInt 1)]),
     [A; L tok]).
Proof.
  intros Ha Hnet Hok Hjson Hdata Hshape.
  after_auth Ha H.
  assert (listing tok net [A]
          = (Return (step_error_plain
                       ("Could not parse hotel IDs: '" ++ Py.type_name data
                        ++ "' object is not iterable") 1), [A; L tok])) as Hl.
  { unfold hotel_list, try_except, list_attempt, hotel_ids_of.
    unfold list_request in Hnet.
    unfold_py. rewrite Hnet. unfold_py. rewrite Hok. unfold_py. rewrite Hjson. unfold_py.
    rewrite Hdata. destruct data; try contradiction; reflexivity. }
  destruct H as [[d' [Hl' Hrun]] | [[e' [Hl' _]] | [[Hl' _] | [ids' [_ [Hl' _]]]]]];
    rewrite Hl in Hl'; try discriminate Hl'.
  injection Hl' as <-. exact Hrun.
Qed.

End Hotel_chain.

(** ** The further statements at concrete inputs *)

Section More_concrete_runs.

#[local] Existing Instance Py.ascii_only.

Lemma token_failure_ends_flight_search_witness :
  exists detail,
    run (sample_flight_search (Some "k") (Some "s") 0 0 None) network_unauthorized
    = (inl (PStr ("Error fetching Amadeus token: " ++ detail)),
       [flight_token_request (Some "k") (Some "s")]).
Proof.
  apply (token_failure_ends_flight_search (Some "k") (Some "s")
           "LHR" "NRT" "2026-01-10" 1 false None 0 0 None 3 network_unauthorized).
  - reflexivity.
  - right. exists unauthorized_response. split; reflexivity.
Defined.

Lemma flight_error_prefers_response_body_witness :
  fst (run (sample_flight_search (Some "k") (Some "s") 0 0 None) network_with_flight_error)
  = inl (PStr ("Error from Amadeus API: " ++ text bad_request_response)).
Proof.
  apply (proj1 (flight_error_prefers_response_body (Some "k") (Some "s")
                  "LHR" "NRT" "2026-01-10" 1 false None 0 0 None 3
                  network_with_flight_error (sample_flight_request None)
                  ltac:(vm_compute; auto) eq_refl)
           bad_request_response).
  - reflexivity.
  - reflexivity.
Defined.

Lemma token_containing_error_is_returned_witness :
  run (sample_flight_search (Some "k") (Some "s") 0 0 None) network_with_unlucky_token
  = (inl (PStr "kErrorQ7"), [flight_token_request (Some "k") (Some "s")]).
Proof.
  apply (token_containing_error_is_returned (Some "k") (Some "s")
           "LHR" "NRT" "2026-01-10" 1 false None 0 0 None 3 network_with_unlucky_token
           unlucky_token_response [("access_token", PStr "kErrorQ7")] "kErrorQ7");
    reflexivity.
Defined.

Lemma flight_call_presents_the_token_witness :
  snd (run (sample_flight_search (Some "k") (Some "s") 0 0 None) healthy_network)
  = [flight_token_request (Some "k") (Some "s");
     {| req_method := GET; req_url := FLIGHT_OFFERS_URL;
        req_headers := {["Authorization" := "Bearer " ++ "tok"]};
        req_fields := flight_params "LHR" "NRT" "2026-01-10" 1 false None 0 0 None 3;
        req_timeout := None |}].
Proof.
  apply (flight_call_presents_the_token (Some "k") (Some "s")
           "LHR" "NRT" "2026-01-10" 1 false None 0 0 None 3 healthy_network
           (json_response 200 ("{" ++ quoted "access_token" ++ ": " ++ quoted "tok" ++ "}")
              (PDict [("access_token", PStr "tok")]))
           [("access_token", PStr "tok")] "tok");
    reflexivity.
Defined.


Lemma flight_search_calls_witness :
  snd (run (sample_flight_search None (Some "s") 0 0 None) healthy_network) = [].
Proof.
  apply (proj2 (proj2 (flight_search_calls None (Some "s")
                         "LHR" "NRT" "2026-01-10" 1 false None 0 0 None 3
                         healthy_network))).
  reflexivity.
Defined.

Lemma flight_required_parameters_witness :
  let rq := sample_flight_request None in
  req_fields rq !! "originLocationCode" = Some (PStr "LHR")
  /\ req_fields rq !! "destinationLocationCode" = Some (PStr "NRT")
  /\ req_fields rq !! "departureDate" = Some (PStr "2026-01-10")
  /\ req_fields rq !! "adults" = Some (PInt 1)
  /\ req_fields rq !! "nonStop" = Some (PStr "false")
  /\ req_fields rq !! "max" = Some (PInt 3)
  /\ dom (req_fields rq)
     ⊆ ({["originLocationCode"; "destinationLocationCode"; "departureDate"; "adults";
          "nonStop"; "max"; "returnDate"; "children"; "infants"; "travelClass"]}
        : gset string).
Proof.
  intros rq.
  apply (flight_required_parameters (Some "k") (Some "s")
           "LHR" "NRT" "2026-01-10" 1 false None 0 0 None 3 healthy_network rq).
  - vm_compute. auto.
  - reflexivity.
Defined.

Lemma return_date_sent_iff_given_witness :
  let rq := flight_offers_request (PStr "tok")
              (flight_params "LHR" "NRT" "2026-01-10" 1 false (Some "2026-01-20")
                 0 0 None 3) in
  req_fields rq !! "returnDate" = Some (PStr "2026-01-20")
  <-> exists date, Some "2026-01-20" = Some date /\ date <> ""
                   /\ PStr "2026-01-20" = PStr date.
Proof.
  intros rq.
  apply (return_date_sent_iff_given (Some "k") (Some "s")
           "LHR" "NRT" "2026-01-10" 1 false (Some "2026-01-20") 0 0 None 3
           healthy_network rq).
  - vm_compute. auto.
  - reflexivity.
Defined.

Lemma hotel_success_returns_payload_witness :
  run (sample_hotel_search (Some "k") (Some "s") 5 "EUR" "1-10000" "") healthy_network
  = (inl (PDict [("data", PList [])]),
     [sample_token_call; sample_list_call;
      sample_offers_request "EUR" "1-10000" "" "H1,H2,H3"]).
Proof.
  apply (hotel_success_returns_payload (Some "k") (Some "s")
           "PAR" "2026-01-10" "2026-01-12" 2 true 1000 5 "EUR" "1-10000" 1 ""
           healthy_network (PStr "tok") [sample_token_call]
           [PStr "H1"; PStr "H2"; PStr "H3"] [sample_token_call; sample_list_call]
           "H1,H2,H3" (json_response 200 empty_data_body (PDict [("data", PList [])]))).
  - vm_compute. reflexivity.
  - vm_compute. reflexivity.
  - discriminate.
  - vm_compute. reflexivity.
  - reflexivity.
  - reflexivity.
  - reflexivity.
Defined.

Lemma non_text_hotel_id_raises_witness :
  exists e,
    exn_cls e = TypeError
    /\ run (sample_hotel_search (Some "k") (Some "s") 5 "EUR" "1-10000" "")
         (network_with_hotels numeric_id_response)
       = (inr e, [sample_token_call; sample_list_call]).
Proof.
  apply (non_text_hotel_id_raises (Some "k") (Some "s")
           "PAR" "2026-01-10" "2026-01-12" 2 true 1000 5 "EUR" "1-10000" 1 ""
           (network_with_hotels numeric_id_response) (PStr "tok") [sample_token_call]
           [PInt 7] [sample_token_call; sample_list_call]).
  - vm_compute. reflexivity.
  - vm_compute. reflexivity.
  - exists (PInt 7). split; [left; reflexivity | discriminate].
Defined.


Lemma zero_max_hotels_finds_nothing_witness :
  run (sample_hotel_search (Some "k") (Some "s") 0 "EUR" "1-10000" "") healthy_network
  = (inl (no_hotels_found "PAR"), [sample_token_call; sample_list_call]).
Proof.
  apply (zero_max_hotels_finds_nothing (Some "k") (Some "s")
           "PAR" "2026-01-10" "2026-01-12" 2 true 1000 0 "EUR" "1-10000" 1 ""
           healthy_network (PStr "tok") [sample_token_call] []
           [sample_token_call; sample_list_call]).
  - reflexivity.
  - vm_compute. reflexivity.
  - vm_compute. reflexivity.
Defined.

Lemma missing_data_is_no_hotels_witness :
  run (sample_hotel_search (Some "k") (Some "s") 5 "EUR" "1-10000" "")
    (network_with_hotels no_data_response)
  = (inl (no_hotels_found "PAR"), [sample_token_call; sample_list_call]).
Proof.
  apply (missing_data_is_no_hotels (Some "k") (Some "s")
           "PAR" "2026-01-10" "2026-01-12" 2 true 1000 5 "EUR" "1-10000" 1 ""
           (network_with_hotels no_data_response) (PStr "tok") [sample_token_call]
           no_data_response [("meta", PDict [])]).
  - vm_compute. reflexivity.
  - reflexivity.
  - reflexivity.
  - reflexivity.
  - reflexivity.
Defined.

Lemma hotel_calls_present_the_token_witness :
  req_headers (sample_offers_request "EUR" "1-10000" "" "H1,H2,H3")
  = {["Authorization" := "Bearer " ++ Py.str (PStr "tok")]}.
Proof.
  apply (proj2 (hotel_calls_present_the_token (Some "k") (Some "s")
                  "PAR" "2026-01-10" "2026-01-12" 2 true 1000 5 "EUR" "1-10000" 1 ""
                  healthy_network (PStr "tok") [sample_token_call]
                  ltac:(vm_compute; reflexivity))).
  - vm_compute. auto.
  - reflexivity.
Defined.

Lemma offers_request_parameters_witness :
  let rq := sample_offers_request "EUR" "1-10000" "" "H1,H2,H3" in
  (exists names,
     [PStr "H1"; PStr "H2"; PStr "H3"] = map PStr names
     /\ req_fields rq !! "hotelIds" = Some (PStr (Py.join "," names)))
  /\ req_fields rq !! "checkInDate" = Some (PStr "2026-01-10")
  /\ req_fields rq !! "checkOutDate" = Some (PStr "2026-01-12")
  /\ req_fields rq !! "adults" = Some (PInt 2)
  /\ req_fields rq !! "roomQuantity" = Some (PInt 1)
  /\ req_fields rq !! "includeClosed" = Some (PStr "true")
  /\ req_fields rq !! "bestRateOnly" = Some (PStr "false").
Proof.
  intros rq.
  apply (offers_request_parameters (Some "k") (Some "s")
           "PAR" "2026-01-10" "2026-01-12" 2 true 1000 5 "EUR" "1-10000" 1 ""
           healthy_network (PStr "tok") [sample_token_call]
           [PStr "H1"; PStr "H2"; PStr "H3"] [sample_token_call; sample_list_call] rq).
  - vm_compute. reflexivity.
  - vm_compute. reflexivity.
  - vm_compute. auto.
  - reflexivity.
Defined.

Lemma auth_failure_details_witness :
  run (sample_hotel_search (Some "k") (Some "s") 5 "EUR" "1-10000" "") network_unauthorized
  = (inl (PDict [("error", PStr "Amadeus authentication failed");
                 ("details",
                  PStr (pretty (status_code unauthorized_response)
                        ++ (if Z.ltb (status_code unauthorized_response) 500
                            then " Client Error: " else " Server Error: ")
                        ++ reason unauthorized_response ++ " for url: "
                        ++ resp_url unauthorized_response));
                 ("step", PStr "auth")]),
     [sample_token_call]).
Proof.
  apply (proj1 (auth_failure_details (Some "k") (Some "s")
                  "PAR" "2026-01-10" "2026-01-12" 2 true 1000 5 "EUR" "1-10000" 1 ""
                  network_unauthorized) unauthorized_response).
  - reflexivity.
  - reflexivity.
Defined.

Example unauthorized_details_text :
  pretty (status_code unauthorized_response)
  ++ (if Z.ltb (status_code unauthorized_response) 500
      then " Client Error: " else " Server Error: ")
  ++ reason unauthorized_response ++ " for url: " ++ resp_url unauthorized_response
  = "401 Client Error: Unauthorized for url: https://test.api.amadeus.com/v1/security/oauth2/token".
Proof. vm_compute. reflexivity. Qed.

Lemma missing_token_reports_the_body_witness :
  run (sample_hotel_search (Some "k") (Some "s") 5 "EUR" "1-10000" "")
    network_without_token_field
  = (inl (PDict [("error", PStr "No access_token in token response");
                 ("details", PStr (text (json_response 200 "{}" (PDict []))));
                 ("step", PStr "auth")]),
     [sample_token_call]).
Proof.
  apply (missing_token_reports_the_body (Some "k") (Some "s")
           "PAR" "2026-01-10" "2026-01-12" 2 true 1000 5 "EUR" "1-10000" 1 ""
           network_without_token_field (json_response 200 "{}" (PDict [])) []);
    reflexivity.
Defined.

Lemma selected_hotels_truthy_and_complete_witness :
  Forall (fun id => Py.truthy id = true) [PStr "H1"; PStr "H2"; PStr "H3"]
  /\ In (PStr "H3") [PStr "H1"; PStr "H2"; PStr "H3"].
Proof.
  destruct (selected_hotels_truthy_and_complete "PAR" true 1000 5 healthy_network
              (PStr "tok") [] [PStr "H1"; PStr "H2"; PStr "H3"] [sample_list_call]
              ltac:(vm_compute; reflexivity)) as [Ht Hc].
  split; [exact Ht |].
  apply (Hc (json_response 200 hotels_body (PDict [("data", PList hotels_entries)]))
            [("data", PList hotels_entries)] hotels_entries
            eq_refl eq_refl eq_refl ltac:(cbn; lia) [("hotelId", PStr "H3")] (PStr "H3")).
  - vm_compute. auto.
  - reflexivity.
  - reflexivity.
Defined.

Lemma non_object_entry_raises_witness :
  exists e,
    exn_cls e = AttributeError
    /\ run (sample_hotel_search (Some "k") (Some "s") 5 "EUR" "1-10000" "")
         (network_with_hotels text_entry_response)
       = (inr e, [sample_token_call; sample_list_call]).
Proof.
  apply (non_object_entry_raises (Some "k") (Some "s")
           "PAR" "2026-01-10" "2026-01-12" 2 true 1000 5 "EUR" "1-10000" 1 ""
           (network_with_hotels text_entry_response) (PStr "tok") [sample_token_call]
           text_entry_response [("data", PList [PStr "H1"])] [PStr "H1"]).
  - vm_compute. reflexivity.
  - reflexivity.
  - reflexivity.
  - reflexivity.
  - reflexivity.
  - exists (PStr "H1"). split; [left; reflexivity | reflexivity].
Defined.

Lemma non_iterable_data_is_parse_error_witness :
  run (sample_hotel_search (Some "k") (Some "s") 5 "EUR" "1-10000" "")
    (network_with_hotels null_data_response)
  = (inl (PDict [("error",
                  PStr ("Could not parse hotel IDs: '" ++ Py.type_name PNone
                        ++ "' object is not iterable"));
                 ("step", PInt 1)]),
     [sample_token_call; sample_list_call]).
Proof.
  apply (non_iterable_data_is_parse_error (Some "k") (Some "s")
           "PAR" "2026-01-10" "2026-01-12" 2 true 1000 5 "EUR" "1-10000" 1 ""
           (network_with_hotels null_data_response) (PStr "tok") [sample_token_call]
           null_data_response [("data", PNone)] PNone).
  - vm_compute. reflexivity.
  - reflexivity.
  - reflexivity.
  - reflexivity.
  - reflexivity.
  - exact I.
Defined.

End More_concrete_runs.
